(** * URL shortener: the create and redirect Lambda handlers

    A shallow embedding of [lambda/create_short_url.py] and
    [lambda/redirect_url.py].  Both handlers are stateless functions over
    one DynamoDB table; everything they touch outside their arguments (the
    table, the clock, the random source, the process environment) is
    gathered in a [World] that the handlers thread through a small
    state-and-exception monad. *)

From stdpp Require Import gmap list.
From Stdlib Require Import NArith ZArith Strings.Byte Lia.

(** ** Python strings

    A Python [str] is a sequence of Unicode code points.  It is modelled as
    the list of its code points, so that [strip], [startswith], slicing and
    the JSON escapes mean what they mean in Python. *)

Definition str := list N.

Inductive str_literal := LNil | LCons (c : N) (r : str_literal).

Fixpoint literal_of_bytes (l : list Byte.byte) : str_literal :=
  match l with
  | [] => LNil
  | b :: r => LCons (Byte.to_N b) (literal_of_bytes r)
  end.

Fixpoint bytes_of_literal (l : str_literal) : option (list Byte.byte) :=
  match l with
  | LNil => Some []
  | LCons c r =>
      match Byte.of_N c, bytes_of_literal r with
      | Some b, Some bs => Some (b :: bs)
      | _, _ => None
      end
  end.

Declare Scope str_scope.
Delimit Scope str_scope with str.
#[warnings="-via-type-remapping,-via-type-mismatch"]
String Notation str literal_of_bytes bytes_of_literal
  (via str_literal mapping [[nil] => LNil, [cons] => LCons]) : str_scope.
Open Scope str_scope.

Module Py.

(** [str.isspace] on one code point: the characters Unicode classes as
    whitespace, which are the ones [str.strip()] removes. *)
Definition isspace (c : N) : bool :=
  ((9 <=? c) && (c <=? 13) || (28 <=? c) && (c <=? 32)
   || (c =? 133) || (c =? 160) || (c =? 5760)
   || (8192 <=? c) && (c <=? 8202)
   || (c =? 8232) || (c =? 8233) || (c =? 8239) || (c =? 8287)
   || (c =? 12288))%N.

(** [s.lstrip(chars)], with the set of characters given as a predicate. *)
Fixpoint lstrip_while (p : N -> bool) (s : str) : str :=
  match s with
  | [] => []
  | c :: r => if p c then lstrip_while p r else s
  end.

Definition rstrip_while (p : N -> bool) (s : str) : str :=
  rev (lstrip_while p (rev s)).

(** [s.strip()] *)
Definition strip (s : str) : str :=
  rstrip_while isspace (lstrip_while isspace s).

(** [s.rstrip(chars)] *)
Definition rstrip (chars : str) (s : str) : str :=
  rstrip_while (fun c => bool_decide (c ∈ chars)) s.

(** [s.startswith(p)] *)
Fixpoint startswith (s p : str) : bool :=
  match p, s with
  | [], _ => true
  | _ :: _, [] => false
  | a :: p', b :: s' => (a =? b)%N && startswith s' p'
  end.

(** [string.ascii_letters] and [string.digits] *)
Definition ascii_lowercase : str := "abcdefghijklmnopqrstuvwxyz".
Definition ascii_uppercase : str := "ABCDEFGHIJKLMNOPQRSTUVWXYZ".
Definition ascii_letters : str := ascii_lowercase ++ ascii_uppercase.
Definition digits : str := "0123456789".

End Py.

(** The character class [[A-Za-z0-9]]. *)
Definition alnum (c : N) : bool :=
  ((65 <=? c) && (c <=? 90) || (97 <=? c) && (c <=? 122)
   || (48 <=? c) && (c <=? 57))%N.

(** ** The world outside the handlers *)

(** An endless supply of readings: reading number [n] is [s n]. *)
Definition stream (A : Type) := nat -> A.

Definition sdrop {A} (k : nat) (s : stream A) : stream A := fun n => s (k + n).

(** The leading readings of a stream are given by a list, the rest by a
    constant. *)
Definition stream_of {A} (l : list A) (d : A) : stream A := fun n => nth n l d.

(** One row of the table. *)
Record Item := {
  short_code : str;
  long_url : str;
  created_at : Z;
  expires_at : Z;
}.

(** [botocore.exceptions.ClientError]: [Code] is
    [e.response["Error"]["Code"]]. *)
Record ClientError := {
  Code : str;
  Message : str;
  operation_name : str;
}.

(** [str(e)] for a [ClientError]. *)
Definition str_ClientError (e : ClientError) : str :=
  "An error occurred (" ++ Code e ++ ") when calling the "
    ++ operation_name e ++ " operation: " ++ Message e.

Definition ConditionalCheckFailedException : str :=
  "ConditionalCheckFailedException".

(** What DynamoDB answers to a conditional put on a key that exists. *)
Definition conditional_check_failed : ClientError :=
  {| Code := ConditionalCheckFailedException;
     Message := "The conditional request failed";
     operation_name := "PutItem" |}.

(** The requests a handler sends to the table. *)
Inductive Request :=
| PutItem (it : Item)
| GetItem (key : str).

Record World := {
  (** the DynamoDB table, keyed by [short_code] *)
  table : gmap str Item;
  (** [os.environ] *)
  environ : gmap str str;
  (** the operating system's random source, as [secrets] reads it *)
  entropy : stream nat;
  (** the successive values of [int(time.time())] *)
  clock : stream Z;
  (** for each request sent to the table, the error the service answers
      with instead of serving it, if any *)
  outages : stream (option ClientError);
  (** the requests sent to the table so far, latest first *)
  requests : list Request;
}.

Definition set_table (f : gmap str Item -> gmap str Item) (w : World) : World :=
  {| table := f (table w); environ := environ w; entropy := entropy w;
     clock := clock w; outages := outages w; requests := requests w |}.

Definition set_entropy (f : stream nat -> stream nat) (w : World) : World :=
  {| table := table w; environ := environ w; entropy := f (entropy w);
     clock := clock w; outages := outages w; requests := requests w |}.

Definition set_clock (f : stream Z -> stream Z) (w : World) : World :=
  {| table := table w; environ := environ w; entropy := entropy w;
     clock := f (clock w); outages := outages w; requests := requests w |}.

(** Sending a request consumes one answer of the service and is recorded. *)
Definition sent (r : Request) (w : World) : World :=
  {| table := table w; environ := environ w; entropy := entropy w;
     clock := clock w; outages := sdrop 1 (outages w);
     requests := r :: requests w |}.

(** ** Exceptions and the handler monad *)

Inductive exn :=
| ClientError_ (e : ClientError)
| JSONDecodeError
| AttributeError
| KeyError (k : str)
| IndexError.

Inductive result (A : Type) :=
| Ok (a : A)
| Raise (e : exn).
Arguments Ok {A} a.
Arguments Raise {A} e.

Definition M (A : Type) : Type := World -> result A * World.

#[global] Instance M_ret : MRet M := fun A a w => (Ok a, w).

#[global] Instance M_bind : MBind M := fun A B k m w =>
  match m w with
  | (Ok a, w') => k a w'
  | (Raise e, w') => (Raise e, w')
  end.

Definition raise {A} (e : exn) : M A := fun w => (Raise e, w).

(** [try: a = m  except e: h e  else: k a]: the handler [h] guards [m]
    only, not the continuation. *)
Definition try_except {A B} (m : M A) (k : A -> M B) (h : exn -> M B) : M B :=
  fun w =>
    match m w with
    | (Ok a, w') => k a w'
    | (Raise e, w') => h e w'
    end.

Fixpoint replicateM {A} (n : nat) (m : M A) : M (list A) :=
  match n with
  | O => mret []
  | S k => a ← m; r ← replicateM k m; mret (a :: r)
  end.

(** ** The primitives the handlers call *)

(** [secrets.choice(seq)]: [seq[secrets.randbelow(len(seq))]]; the index is
    the next reading of the random source, reduced below the length.
    ([randbelow] itself reads again when a reading is not below the
    length: the two agree on every reading that is.) *)
Definition secrets_choice (seq : str) : M N := fun w =>
  match seq !! (entropy w 0 mod length seq)%nat with
  | Some c => (Ok c, set_entropy (sdrop 1) w)
  | None => (Raise IndexError, w)
  end.

(** [int(time.time())] *)
Definition int_time_time : M Z := fun w =>
  (Ok (clock w 0%nat), set_clock (sdrop 1) w).

(** [os.environ[name]] *)
Definition os_environ (name : str) : M str := fun w =>
  match environ w !! name with
  | Some v => (Ok v, w)
  | None => (Raise (KeyError name), w)
  end.

(** [table.put_item(Item=it,
      ConditionExpression="attribute_not_exists(short_code)")]:
    one atomic check-and-write.  The failures modelled are the errors
    the service answers with, each a [ClientError]; a request that gets
    no answer (no connection, a timeout) is outside the model. *)
Definition put_item_if_not_exists (it : Item) : M unit := fun w =>
  let w' := sent (PutItem it) w in
  match outages w 0%nat with
  | Some e => (Raise (ClientError_ e), w')
  | None =>
      match table w !! short_code it with
      | Some _ => (Raise (ClientError_ conditional_check_failed), w')
      | None => (Ok tt, set_table (insert (short_code it) it) w')
      end
  end.

(** [table.get_item(Key={"short_code": key}).get("Item")] *)
Definition get_item (key : str) : M (option Item) := fun w =>
  let w' := sent (GetItem key) w in
  match outages w 0%nat with
  | Some e => (Raise (ClientError_ e), w')
  | None => (Ok (table w !! key), w')
  end.

(** DynamoDB's time-to-live sweep, run by the service on its own schedule:
    it deletes the rows whose [expires_at] has passed. *)
Definition ttl_sweep (now : Z) (w : World) : World :=
  set_table (filter (fun kv => (now <= expires_at kv.2)%Z)) w.

(** ** The [json] module

    [json.loads] on a [str], with the default (strict) decoder, and
    [json.dumps] on a dictionary of strings, with the default
    [ensure_ascii=True].  Numbers are kept as the text that was matched:
    neither handler looks inside one. *)

Module Json.

#[warnings="-register-all"]
Inductive value :=
| JNull
| JBool (b : bool)
| JNumber (lexeme : str)
| JString (s : str)
| JArray (elements : list value)
| JObject (members : list (str * value)).

(** What a scanner makes of the text in front of it. *)
Inductive parse (A : Type) :=
| Parsed (a : A) (rest : str)
| Invalid
| OutOfFuel.
Arguments Parsed {A} a rest.
Arguments Invalid {A}.
Arguments OutOfFuel {A}.

Definition parse_map {A B} (f : A -> B) (p : parse A) : parse B :=
  match p with
  | Parsed a rest => Parsed (f a) rest
  | Invalid => Invalid
  | OutOfFuel => OutOfFuel
  end.

(** The decoder's whitespace: space, tab, line feed, carriage return. *)
Definition is_ws (c : N) : bool :=
  ((c =? 32) || (c =? 9) || (c =? 10) || (c =? 13))%N.

Definition skip_ws (s : str) : str := Py.lstrip_while is_ws s.

Definition is_digit (c : N) : bool := ((48 <=? c) && (c <=? 57))%N.

Definition hex_value (c : N) : option N :=
  if is_digit c then Some (c - 48)%N
  else if ((97 <=? c) && (c <=? 102))%N then Some (c - 87)%N
  else if ((65 <=? c) && (c <=? 70))%N then Some (c - 55)%N
  else None.

Definition hex4 (a b c d : N) : option N :=
  match hex_value a, hex_value b, hex_value c, hex_value d with
  | Some x, Some y, Some z, Some t => Some (((x * 16 + y) * 16 + z) * 16 + t)%N
  | _, _, _, _ => None
  end.

(** The one-letter escapes: the letter after the backslash, and the
    character it stands for. *)
Definition unescape (c : N) : option N :=
  if (c =? 34)%N then Some 34%N            (* quote *)
  else if (c =? 92)%N then Some 92%N       (* backslash *)
  else if (c =? 47)%N then Some 47%N       (* slash *)
  else if (c =? 98)%N then Some 8%N        (* b *)
  else if (c =? 102)%N then Some 12%N      (* f *)
  else if (c =? 110)%N then Some 10%N      (* n *)
  else if (c =? 114)%N then Some 13%N      (* r *)
  else if (c =? 116)%N then Some 9%N       (* t *)
  else None.

Definition is_high_surrogate (u : N) : bool := ((55296 <=? u) && (u <=? 56319))%N.
Definition is_low_surrogate (u : N) : bool := ((56320 <=? u) && (u <=? 57343))%N.

(** [py_scanstring], from just after the opening quote. *)
Fixpoint scanstring (s : str) : parse str :=
  match s with
  | [] => Invalid
  | c :: r =>
      if (c =? 34)%N then Parsed [] r
      else if (c =? 92)%N then
        match r with
        | [] => Invalid
        | e :: r0 =>
            if (e =? 117)%N then
              match r0 with
              | h1 :: h2 :: h3 :: h4 :: r1 =>
                  match hex4 h1 h2 h3 h4 with
                  | None => Invalid
                  | Some uni =>
                      match r1 with
                      | b :: u :: l1 :: l2 :: l3 :: l4 :: r2 =>
                          if is_high_surrogate uni && (b =? 92)%N && (u =? 117)%N then
                            match hex4 l1 l2 l3 l4 with
                            | None => Invalid
                            | Some uni2 =>
                                if is_low_surrogate uni2 then
                                  parse_map
                                    (cons (65536 + ((uni - 55296) * 1024 + (uni2 - 56320)))%N)
                                    (scanstring r2)
                                else parse_map (cons uni) (scanstring r1)
                            end
                          else parse_map (cons uni) (scanstring r1)
                      | _ => parse_map (cons uni) (scanstring r1)
                      end
                  end
              | _ => Invalid
              end
            else
              match unescape e with
              | Some ch => parse_map (cons ch) (scanstring r0)
              | None => Invalid
              end
        end
      else if (c <? 32)%N then Invalid
      else parse_map (cons c) (scanstring r)
  end.

(** The longest run of ASCII digits in front, and what follows it. *)
Fixpoint span_digits (s : str) : str * str :=
  match s with
  | c :: r =>
      if is_digit c then let '(ds, rest) := span_digits r in (c :: ds, rest)
      else ([], s)
  | [] => ([], [])
  end.

(** When [s] starts with [p], what follows [p]. *)
Fixpoint after_prefix (p s : str) : option str :=
  match p, s with
  | [], _ => Some s
  | a :: p', b :: s' => if (a =? b)%N then after_prefix p' s' else None
  | _ :: _, [] => None
  end.

(** [NUMBER_RE]: an optional minus sign and an integer part (a lone
    zero, or a non-zero digit and any digits), then optionally a point
    and one or more digits, then optionally [e] or [E], an optional
    sign and one or more digits. *)
Definition scan_int (s : str) : option (str * str) :=
  let '(sign, s1) :=
    match s with
    | c :: r => if (c =? 45)%N then ([c], r) else ([], s)
    | [] => ([], s)
    end in
  match s1 with
  | c :: r =>
      if (c =? 48)%N then Some (sign ++ [c], r)
      else if is_digit c then
        let '(ds, rest) := span_digits r in Some (sign ++ c :: ds, rest)
      else None
  | [] => None
  end.

Definition scan_frac (s : str) : str * str :=
  match s with
  | c :: r =>
      if (c =? 46)%N then
        match span_digits r with
        | ([], _) => ([], s)
        | (ds, rest) => (c :: ds, rest)
        end
      else ([], s)
  | [] => ([], s)
  end.

Definition scan_exp (s : str) : str * str :=
  match s with
  | c :: r =>
      if ((c =? 101) || (c =? 69))%N then
        let '(sign, r1) :=
          match r with
          | g :: r' => if ((g =? 45) || (g =? 43))%N then ([g], r') else ([], r)
          | [] => ([], r)
          end in
        match span_digits r1 with
        | ([], _) => ([], s)
        | (ds, rest) => (c :: sign ++ ds, rest)
        end
      else ([], s)
  | [] => ([], s)
  end.

Definition scan_number (s : str) : option (str * str) :=
  match scan_int s with
  | None => None
  | Some (int, r) =>
      let '(frac, r1) := scan_frac r in
      let '(exp, r2) := scan_exp r1 in
      Some (int ++ frac ++ exp, r2)
  end.

(** The values that are neither strings, arrays nor objects, in the
    order the scanner tries them. *)
Definition scan_atom (s : str) : parse value :=
  match after_prefix "null" s with
  | Some r => Parsed JNull r
  | None =>
  match after_prefix "true" s with
  | Some r => Parsed (JBool true) r
  | None =>
  match after_prefix "false" s with
  | Some r => Parsed (JBool false) r
  | None =>
  match scan_number s with
  | Some (lexeme, r) => Parsed (JNumber lexeme) r
  | None =>
  match after_prefix "NaN" s with
  | Some r => Parsed (JNumber "NaN") r
  | None =>
  match after_prefix "Infinity" s with
  | Some r => Parsed (JNumber "Infinity") r
  | None =>
  match after_prefix "-Infinity" s with
  | Some r => Parsed (JNumber "-Infinity") r
  | None => Invalid
  end end end end end end end.

(** [scan_once], [JSONArray] and [JSONObject].  [parse_elements] starts
    at the first character of an element, [parse_members] at the quote
    that opens a key. *)
Fixpoint parse_value (fuel : nat) (s : str) : parse value :=
  match fuel with
  | O => OutOfFuel
  | S fuel =>
      match s with
      | [] => Invalid
      | c :: r =>
          if (c =? 34)%N then parse_map JString (scanstring r)
          else if (c =? 123)%N then
            match skip_ws r with
            | d :: r' =>
                if (d =? 125)%N then Parsed (JObject []) r'
                else parse_map JObject (parse_members fuel (d :: r'))
            | [] => Invalid
            end
          else if (c =? 91)%N then
            match skip_ws r with
            | d :: r' =>
                if (d =? 93)%N then Parsed (JArray []) r'
                else parse_map JArray (parse_elements fuel (d :: r'))
            | [] => Invalid
            end
          else scan_atom s
      end
  end
with parse_elements (fuel : nat) (s : str) : parse (list value) :=
  match fuel with
  | O => OutOfFuel
  | S fuel =>
      match parse_value fuel s with
      | Parsed v r1 =>
          match skip_ws r1 with
          | d :: r2 =>
              if (d =? 93)%N then Parsed [v] r2
              else if (d =? 44)%N then
                parse_map (cons v) (parse_elements fuel (skip_ws r2))
              else Invalid
          | [] => Invalid
          end
      | Invalid => Invalid
      | OutOfFuel => OutOfFuel
      end
  end
with parse_members (fuel : nat) (s : str) : parse (list (str * value)) :=
  match fuel with
  | O => OutOfFuel
  | S fuel =>
      match s with
      | q :: r =>
          if (q =? 34)%N then
            match scanstring r with
            | Parsed key r1 =>
                match skip_ws r1 with
                | c :: r2 =>
                    if (c =? 58)%N then
                      match parse_value fuel (skip_ws r2) with
                      | Parsed v r3 =>
                          match skip_ws r3 with
                          | d :: r4 =>
                              if (d =? 125)%N then Parsed [(key, v)] r4
                              else if (d =? 44)%N then
                                parse_map (cons (key, v))
                                  (parse_members fuel (skip_ws r4))
                              else Invalid
                          | [] => Invalid
                          end
                      | Invalid => Invalid
                      | OutOfFuel => OutOfFuel
                      end
                    else Invalid
                | [] => Invalid
                end
            | Invalid => Invalid
            | OutOfFuel => OutOfFuel
            end
          else Invalid
      | [] => Invalid
      end
  end.

(** [JSONDecoder.decode]: one value, whitespace around it, nothing
    else. *)
Definition decode (s : str) : parse value :=
  match parse_value (2 * length s + 1) (skip_ws s) with
  | Parsed v rest =>
      match skip_ws rest with
      | [] => Parsed v []
      | _ :: _ => Invalid
      end
  | Invalid => Invalid
  | OutOfFuel => OutOfFuel
  end.

(** [json.loads(s)]; [None] stands for [JSONDecodeError]. *)
Definition loads (s : str) : option value :=
  match decode s with
  | Parsed v _ => Some v
  | _ => None
  end.

(** [d.get(key)] on the dictionary an object decodes to: of several
    members with one key the last is kept. *)
Fixpoint members_get (key : str) (ms : list (str * value)) : option value :=
  match ms with
  | [] => None
  | (k, v) :: r =>
      match members_get key r with
      | Some v' => Some v'
      | None => if decide (k = key) then Some v else None
      end
  end.

(** *** [json.dumps] *)

Definition hex_digit (n : N) : N :=
  if (n <? 10)%N then (48 + n)%N else (87 + n)%N.

(** [\uXXXX] *)
Definition escape_u (u : N) : str :=
  [92; 117; hex_digit (u / 4096 mod 16); hex_digit (u / 256 mod 16);
   hex_digit (u / 16 mod 16); hex_digit (u mod 16)]%N.

Definition escape_char (c : N) : str :=
  if (c =? 34)%N then [92; 34]%N
  else if (c =? 92)%N then [92; 92]%N
  else if (c =? 10)%N then [92; 110]%N
  else if (c =? 13)%N then [92; 114]%N
  else if (c =? 9)%N then [92; 116]%N
  else if (c =? 12)%N then [92; 102]%N
  else if (c =? 8)%N then [92; 98]%N
  else if ((32 <=? c) && (c <=? 126))%N then [c]
  else if (c <? 65536)%N then escape_u c
  else
    let v := (c - 65536)%N in
    escape_u (55296 + v / 1024 mod 1024) ++ escape_u (56320 + v mod 1024).

(** [py_encode_basestring_ascii] *)
Definition encode_string (s : str) : str :=
  [34%N] ++ concat (map escape_char s) ++ [34%N].

Fixpoint join (sep : str) (l : list str) : str :=
  match l with
  | [] => []
  | [x] => x
  | x :: r => x ++ sep ++ join sep r
  end.

(** [json.dumps(d)] for a dictionary [d] of strings, in insertion
    order. *)
Definition dumps (d : list (str * str)) : str :=
  "{" ++ join ", " (map (fun kv => encode_string kv.1 ++ ": " ++ encode_string kv.2) d)
      ++ "}".

End Json.

(** ** What API Gateway passes in and expects back *)

Module Event.
(** The fields of the event the two handlers read: [event["body"]] is a
    string or absent, [event["pathParameters"]] a dictionary of strings
    or absent. *)
Record t := {
  body : option str;
  pathParameters : option (gmap str str);
}.
End Event.

Record Response := {
  statusCode : Z;
  headers : list (str * str);
  body : str;
}.

(** [x or d] on an optional string: [d] when [x] is [None] or empty. *)
Definition str_or (x : option str) (d : str) : str :=
  match x with
  | Some (c :: s) => c :: s
  | _ => d
  end.

(** ** [create_short_url.py] *)

Module CreateShortUrl.

Definition ALPHABET : str := Py.ascii_letters ++ Py.digits.
Definition CODE_LENGTH : nat := 8.

Definition generate_short_code : M str :=
  replicateM CODE_LENGTH (secrets_choice ALPHABET).

Definition _response (status_code : Z) (body : list (str * str)) : Response :=
  {| statusCode := status_code;
     headers := [("Content-Type", "application/json");
                 ("Access-Control-Allow-Origin", "*")];
     body := Json.dumps body |}.

(** [json.loads(s)]: the value, or [JSONDecodeError].  The limits of the
    interpreter (the recursion limit on nested arrays and objects, the
    digit limit on integers) are outside the model. *)
Definition json_loads (s : str) : M Json.value :=
  match Json.loads s with
  | Some v => mret v
  | None => raise JSONDecodeError
  end.

(** [body.get(key, default)]: only a dictionary has [get]. *)
Definition get (body : Json.value) (key : str) (default : Json.value) : M Json.value :=
  match body with
  | Json.JObject members => mret (from_option id default (Json.members_get key members))
  | _ => raise AttributeError
  end.

(** [v.strip()]: only a string has [strip]. *)
Definition strip (v : Json.value) : M str :=
  match v with
  | Json.JString s => mret (Py.strip s)
  | _ => raise AttributeError
  end.

(** The collision loop, [for _ in range(attempts)], and the statement
    after it. *)
Fixpoint collision_loop (attempts : nat) (long_url : str) : M Response :=
  match attempts with
  | O =>
      mret (_response 500
              [("error", "Could not generate a unique short code. Try again.")])
  | S attempts =>
      short_code ← generate_short_code;
      try_except
        (created_at ← int_time_time;
         now ← int_time_time;
         put_item_if_not_exists
           {| short_code := short_code;
              long_url := long_url;
              created_at := created_at;
              expires_at := now + 60 * 60 * 24 * 90 |};;
         base_url ← os_environ "BASE_URL";
         let base_url := Py.rstrip "/" base_url in
         let short_url := base_url ++ "/" ++ short_code in
         mret (_response 201
                 [("short_url", short_url);
                  ("short_code", short_code);
                  ("long_url", long_url);
                  ("expires_in", "90 days")]))
        mret
        (fun e =>
           match e with
           | ClientError_ ce =>
               if bool_decide (Code ce = ConditionalCheckFailedException)
               then collision_loop attempts long_url
               else mret (_response 500
                            [("error", "Database error");
                             ("detail", str_ClientError ce)])
           | _ => raise e
           end)
  end.

Definition lambda_handler (event : Event.t) : M Response :=
  try_except
    (json_loads (str_or (Event.body event) "{}"))
    (fun body =>
       long_url ← get body "long_url" (Json.JString "") ≫= strip;
       if bool_decide (long_url = "") then
         mret (_response 400 [("error", "long_url is required")])
       else if negb (Py.startswith long_url "http://"
                     || Py.startswith long_url "https://") then
         mret (_response 400
                 [("error", "long_url must start with http:// or https://")])
       else collision_loop 5 long_url)
    (fun e =>
       match e with
       | JSONDecodeError =>
           mret (_response 400 [("error", "Request body must be valid JSON")])
       | _ => raise e
       end).

End CreateShortUrl.

(** ** [redirect_url.py] *)

Module RedirectUrl.

Definition _response (status_code : Z) (body : list (str * str)) : Response :=
  {| statusCode := status_code;
     headers := [("Content-Type", "application/json");
                 ("Access-Control-Allow-Origin", "*")];
     body := Json.dumps body |}.

Definition lambda_handler (event : Event.t) : M Response :=
  let path_params := default ∅ (Event.pathParameters event) in
  let short_code := Py.strip (default "" (path_params !! "short_code")) in
  if bool_decide (short_code = "") then
    mret (_response 400 [("error", "short_code is required")])
  else
    try_except
      (get_item short_code)
      (fun item =>
         match item with
         | None =>
             mret (_response 404
                     [("error", "Short code '" ++ short_code ++ "' not found")])
         | Some item =>
             mret {| statusCode := 301;
                     headers := [("Location", long_url item);
                                 ("Access-Control-Allow-Origin", "*")];
                     body := "" |}
         end)
      (fun e =>
         match e with
         | ClientError_ ce =>
             mret (_response 500
                     [("error", "Database error");
                      ("detail", str_ClientError ce)])
         | _ => raise e
         end).

End RedirectUrl.

(** ** Vocabulary of the statements *)

(** One turn of the collision loop up to the answer of the table: draw a
    candidate, read the clock for the two timestamps, send the conditional
    put.  The result is the row that was sent. *)
Definition attempt (long_url : str) : M Item :=
  short_code ← CreateShortUrl.generate_short_code;
  created_at ← int_time_time;
  now ← int_time_time;
  let it := {| short_code := short_code;
               long_url := long_url;
               created_at := created_at;
               expires_at := now + 60 * 60 * 24 * 90 |} in
  put_item_if_not_exists it;;
  mret it.

(** The row an attempt sends from the world [w] when it draws the
    candidate [c]: the two timestamps are two readings of the clock. *)
Definition row (c u : str) (w : World) : Item :=
  {| short_code := c;
     long_url := u;
     created_at := clock w 0%nat;
     expires_at := clock w 1%nat + 60 * 60 * 24 * 90 |}.

(** [retries k long_url w] is the world after [k] turns from [w] when each
    of them is answered with a conditional-check failure, and [None] when
    one of them is answered otherwise. *)
Fixpoint retries (k : nat) (long_url : str) (w : World) : option World :=
  match k with
  | O => Some w
  | S k =>
      match attempt long_url w with
      | (Raise (ClientError_ ce), w') =>
          if bool_decide (Code ce = ConditionalCheckFailedException)
          then retries k long_url w'
          else None
      | _ => None
      end
  end.

(** The request body decodes to an object whose [long_url] is the string
    [raw]. *)
Definition submits (event : Event.t) (raw : str) : Prop :=
  ∃ members,
    Json.loads (str_or (Event.body event) "{}") = Some (Json.JObject members)
    ∧ Json.members_get "long_url" members = Some (Json.JString raw).

(** A long URL as the data model wants it: not empty, and starting with
    [http://] or [https://]. *)
Definition valid_long_url (u : str) : Prop :=
  u ≠ "" ∧ (Py.startswith u "http://" || Py.startswith u "https://") = true.

(** The body of a 201 answer. *)
Definition created (base_url short_code long_url : str) : str :=
  Json.dumps [("short_url", Py.rstrip "/" base_url ++ "/" ++ short_code);
              ("short_code", short_code);
              ("long_url", long_url);
              ("expires_in", "90 days")].

(** The answer of a redirect to [target]. *)
Definition moved_permanently (target : str) : Response :=
  {| statusCode := 301;
     headers := [("Location", target); ("Access-Control-Allow-Origin", "*")];
     body := "" |}.

Definition exhausted : Response :=
  CreateShortUrl._response 500
    [("error", "Could not generate a unique short code. Try again.")].

Definition database_error (ce : ClientError) : Response :=
  CreateShortUrl._response 500
    [("error", "Database error"); ("detail", str_ClientError ce)].

Definition created_response (base_url short_code long_url : str) : Response :=
  {| statusCode := 201;
     headers := [("Content-Type", "application/json");
                 ("Access-Control-Allow-Origin", "*")];
     body := created base_url short_code long_url |}.

(** The answers of the create handler. *)
Definition bad_request (message : str) : Response :=
  CreateShortUrl._response 400 [("error", message)].

(** Every run of the loop is a number of collisions followed by one of
    three endings. *)
Inductive loop_run (n : nat) (u : str) (w : World) : result Response -> World -> Prop :=
| run_exhausted w' :
    retries n u w = Some w' ->
    loop_run n u w (Ok exhausted) w'
| run_failed k w1 ce w' :
    (k < n)%nat -> retries k u w = Some w1 ->
    attempt u w1 = (Raise (ClientError_ ce), w') ->
    Code ce ≠ ConditionalCheckFailedException ->
    loop_run n u w (Ok (database_error ce)) w'
| run_stored k w1 it w' :
    (k < n)%nat -> retries k u w = Some w1 ->
    attempt u w1 = (Ok it, w') ->
    loop_run n u w
      (match environ w' !! "BASE_URL" with
       | Some b => Ok (created_response b (short_code it) u)
       | None => Raise (KeyError "BASE_URL")
       end) w'.

(** The short code a redirect request carries in its path. *)
Definition path_short_code (event : Event.t) : str :=
  default "" (default ∅ (Event.pathParameters event) !! "short_code").

(** The 404 answer of the redirect handler. *)
Definition not_found (short_code : str) : Response :=
  RedirectUrl._response 404
    [("error", "Short code '" ++ short_code ++ "' not found")].

(** A scanner is sound on [s] when it ends, and what it leaves is shorter
    than [s]. *)
Definition consumes {A} (p : Json.parse A) (s : str) : Prop :=
  p ≠ Json.OutOfFuel ∧ ∀ a r, p = Json.Parsed a r -> (length r < length s)%nat.

Definition is_put (r : Request) : Prop :=
  match r with
  | PutItem _ => True
  | GetItem _ => False
  end.

Definition ninety_days : Z := 7776000.

(** *** Requests and worlds to run the handlers on *)

(** [POST /shorten] with the body [{"long_url": raw}]. *)
Definition post (raw : str) : Event.t :=
  {| Event.body := Some (Json.dumps [("long_url", raw)]);
     Event.pathParameters := None |}.

(** [POST /shorten] with an arbitrary body. *)
Definition post_body (s : str) : Event.t :=
  {| Event.body := Some s; Event.pathParameters := None |}.

(** [GET /{short_code}] *)
Definition fetch (code : str) : Event.t :=
  {| Event.body := None;
     Event.pathParameters := Some {[ ("short_code" : str) := code ]} |}.

(** An empty table, a clock that ticks between the two readings of the
    first attempt, a service that serves every request. *)
Definition world0 : World :=
  {| table := ∅;
     environ := {[ ("BASE_URL" : str) := ("https://sho.rt/" : str) ]};
     entropy := fun n => (7 * n + 3)%nat;
     clock := stream_of [1699999999; 1700000000]%Z 1700000001%Z;
     outages := fun _ => None;
     requests := [] |}.

(** A service whose answers to the next requests are listed; it serves
    every request after them. *)
Definition answering (l : list (option ClientError)) (w : World) : World :=
  {| table := table w; environ := environ w; entropy := entropy w;
     clock := clock w;
     outages := stream_of l None;
     requests := requests w |}.

Definition throttled : ClientError :=
  {| Code := "ProvisionedThroughputExceededException";
     Message := "The level of configured provisioned throughput for the table was exceeded";
     operation_name := "PutItem" |}.

(** A random source that draws each character eight times in a row: the
    candidates are [aaaaaaaa], [bbbbbbbb], and so on. *)
Definition spelling (w : World) : World := set_entropy (fun _ n => (n / 8)%nat) w.

(** [world0] with the row of [aaaaaaaa] already in the table. *)
Definition world1 : World :=
  set_table
    (insert "aaaaaaaa"
       {| short_code := "aaaaaaaa"; long_url := "https://example.com/first";
          created_at := 1690000000; expires_at := 1697776000 |})
    (spelling world0).

(** A row as the create handler writes it: a code of 8 characters of
    [[A-Za-z0-9]], and a valid long URL with no whitespace around it. *)
Definition well_formed_row (it : Item) : Prop :=
  length (short_code it) = 8%nat
  ∧ Forall (fun c => alnum c = true) (short_code it)
  ∧ valid_long_url (long_url it)
  ∧ Py.strip (long_url it) = long_url it.

(** A table in which every row is well formed and filed under its own
    code. *)
Definition well_formed_table (t : gmap str Item) : Prop :=
  ∀ k it, t !! k = Some it -> short_code it = k ∧ well_formed_row it.

(** A request to either handler, and the world it leaves. *)
Inductive Call :=
| Shorten (event : Event.t)
| Follow (event : Event.t).

Definition call (c : Call) (w : World) : World :=
  match c with
  | Shorten event => (CreateShortUrl.lambda_handler event w).2
  | Follow event => (RedirectUrl.lambda_handler event w).2
  end.

(** The world after a sequence of requests, served one after the other. *)
Definition calls (cs : list Call) (w : World) : World := foldl (fun w c => call c w) w cs.

(** The candidate the next call of [generate_short_code] draws. *)
Definition candidate (w : World) : str :=
  (fun i => default 0%N (CreateShortUrl.ALPHABET !! (entropy w i mod 62)%nat))
    <$> seq 0 CreateShortUrl.CODE_LENGTH.

(** A world in which [BASE_URL] is not set. *)
Definition unconfigured (w : World) : World :=
  {| table := table w; environ := ∅; entropy := entropy w;
     clock := clock w; outages := outages w; requests := requests w |}.

(** A Unicode scalar value: a code point that is not a surrogate. *)
Definition scalar (c : N) : bool :=
  ((c <? 55296) || (57343 <? c) && (c <? 1114112))%N.

(** A dictionary whose keys and values are made of scalar values. *)
Definition scalar_dict (d : list (str * str)) : Prop :=
  Forall (fun kv => Forall (fun c => scalar c = true) kv.1
                    ∧ Forall (fun c => scalar c = true) kv.2) d.

(** What [json.loads] makes of a dictionary of strings. *)
Definition as_object (d : list (str * str)) : Json.value :=
  Json.JObject ((fun kv => (kv.1, Json.JString kv.2)) <$> d).

(** The text [json.dumps] writes for one member, [key: value]. *)
Definition member_text (kv : str * str) : str :=
  Json.encode_string kv.1 ++ ": " ++ Json.encode_string kv.2.

Arguments str_ClientError : simpl never.
Arguments Json.dumps : simpl never.
Arguments created : simpl never.

(** * Properties *)

(** ** Strings *)
Section Strip.
Variable p : N -> bool.

Lemma lstrip_while_all (s : str) : Forall (fun c => p c = true) s -> Py.lstrip_while p s = [].
Proof. induction 1 as [|c r Hc _ IH]; simpl; [done|]. by rewrite Hc. Qed.

Lemma lstrip_while_none (s : str) : Forall (fun c => p c = false) s -> Py.lstrip_while p s = s.
Proof. destruct 1 as [|c r Hc _]; simpl; [done|]. by rewrite Hc. Qed.

Lemma rstrip_while_none (s : str) : Forall (fun c => p c = false) s -> Py.rstrip_while p s = s.
Proof.
  intros H. unfold Py.rstrip_while.
  rewrite lstrip_while_none; [apply rev_involutive|].
  by apply Forall_rev.
Qed.
End Strip.

Lemma strip_all_space (s : str) : Forall (fun c => Py.isspace c = true) s -> Py.strip s = "".
Proof. intros H. unfold Py.strip. by rewrite lstrip_while_all. Qed.

Lemma strip_no_space (s : str) : Forall (fun c => Py.isspace c = false) s -> Py.strip s = s.
Proof.
  intros H. unfold Py.strip. rewrite lstrip_while_none by done.
  by apply rstrip_while_none.
Qed.

Ltac bools_to_props :=
  repeat match goal with
    | H : _ |- _ =>
        progress rewrite ?orb_true_iff, ?andb_true_iff, ?N.leb_le, ?N.eqb_eq, ?N.ltb_lt in H
    end.

Lemma alnum_not_space c : alnum c = true -> Py.isspace c = false.
Proof.
  intros Ha. apply not_true_is_false. intros Hs.
  unfold alnum, Py.isspace in *. bools_to_props. lia.
Qed.

Lemma ALPHABET_alnum : Forall (fun c => alnum c = true) CreateShortUrl.ALPHABET.
Proof. by vm_compute; repeat constructor. Qed.

Lemma ALPHABET_length : length CreateShortUrl.ALPHABET = 62%nat.
Proof. reflexivity. Qed.

Lemma ALPHABET_NoDup : NoDup CreateShortUrl.ALPHABET.
Proof. apply (bool_decide_unpack (NoDup _)). by vm_compute. Qed.

Lemma alnum_ALPHABET c : alnum c = true -> c ∈ CreateShortUrl.ALPHABET.
Proof.
  intros Ha.
  assert (Hc : (N.to_nat c < 123)%nat).
  { unfold alnum in Ha. bools_to_props. lia. }
  assert (Hall : Forall (fun n => alnum (N.of_nat n) = true ->
                                  N.of_nat n ∈ CreateShortUrl.ALPHABET) (seq 0 123)).
  { apply (bool_decide_unpack _). by vm_compute. }
  rewrite Forall_seq in Hall.
  specialize (Hall (N.to_nat c)). rewrite N2Nat.id in Hall.
  apply Hall; [lia | done].
Qed.

(** ** The primitives *)

Ltac run := unfold mbind, M_bind, mret, M_ret, raise, try_except in *.

Lemma set_entropy_same (w : World) : set_entropy (fun _ => entropy w) w = w.
Proof. by destruct w. Qed.

Lemma replicateM_secrets_choice (n : nat) (seq : str) (w : World) :
  seq ≠ [] ->
  ∃ cs e,
    replicateM n (secrets_choice seq) w = (Ok cs, set_entropy (fun _ => e) w)
    ∧ length cs = n ∧ Forall (fun c => c ∈ seq) cs.
Proof.
  intros Hseq. revert w. induction n as [|n IH]; intros w.
  - exists [], (entropy w). by rewrite set_entropy_same.
  - assert (Hlt : (entropy w 0 mod length seq < length seq)%nat).
    { apply Nat.mod_upper_bound. by destruct seq. }
    destruct (lookup_lt_is_Some_2 _ _ Hlt) as [c Hc].
    destruct (IH (set_entropy (sdrop 1) w)) as (cs & e & Hrun & Hlen & Hall).
    exists (c :: cs), e. split; [|split].
    + cbn [replicateM]. run. unfold secrets_choice at 1. unfold str in *. rewrite Hc, Hrun. done.
    + simpl. by rewrite Hlen.
    + constructor; [|done]. by eapply list_elem_of_lookup_2.
Qed.

Lemma generate_short_code_runs (w : World) :
  ∃ c e,
    CreateShortUrl.generate_short_code w = (Ok c, set_entropy (fun _ => e) w)
    ∧ length c = 8%nat ∧ Forall (fun ch => ch ∈ CreateShortUrl.ALPHABET) c.
Proof. by apply replicateM_secrets_choice. Qed.

Lemma attempt_cases (u : str) (w : World) :
  ∃ c e,
    let it := row c u w in
    let w' := sent (PutItem it)
                (set_clock (sdrop 1) (set_clock (sdrop 1) (set_entropy (fun _ => e) w))) in
    length c = 8%nat ∧ Forall (fun ch => ch ∈ CreateShortUrl.ALPHABET) c
    ∧ attempt u w =
        match outages w 0%nat with
        | Some ce => (Raise (ClientError_ ce), w')
        | None =>
            match table w !! c with
            | Some _ => (Raise (ClientError_ conditional_check_failed), w')
            | None => (Ok it, set_table (insert c it) w')
            end
        end.
Proof.
  destruct (generate_short_code_runs w) as (c & e & Hg & Hlen & Hall).
  exists c, e. do 2 (split; [done|]).
  unfold attempt. run. rewrite Hg. cbn.
  unfold put_item_if_not_exists. cbn.
  destruct (outages w 0%nat); [done|].
  by destruct (table w !! c).
Qed.

Lemma collision_loop_S (n : nat) (u : str) (w : World) :
  CreateShortUrl.collision_loop (S n) u w =
    match attempt u w with
    | (Ok it, w') =>
        match environ w' !! "BASE_URL" with
        | Some b =>
            (Ok {| statusCode := 201;
                   headers := [("Content-Type", "application/json");
                               ("Access-Control-Allow-Origin", "*")];
                   body := created b (short_code it) u |}, w')
        | None => (Raise (KeyError "BASE_URL"), w')
        end
    | (Raise (ClientError_ ce), w') =>
        if bool_decide (Code ce = ConditionalCheckFailedException)
        then CreateShortUrl.collision_loop n u w'
        else (Ok (CreateShortUrl._response 500
                    [("error", "Database error"); ("detail", str_ClientError ce)]), w')
    | (Raise e, w') => (Raise e, w')
    end.
Proof.
  destruct (generate_short_code_runs w) as (c & e & Hg & _).
  unfold attempt. cbn [CreateShortUrl.collision_loop]. run. rewrite Hg. cbn.
  unfold put_item_if_not_exists. cbn.
  destruct (outages w 0%nat) as [ce|]; cbn.
  { by destruct (bool_decide _). }
  destruct (table w !! c); cbn; [done|].
  unfold os_environ. cbn.
  by destruct (environ w !! _).
Qed.

(** ** One attempt *)

Lemma attempt_stored (u : str) (w : World) (it : Item) (w' : World) :
  attempt u w = (Ok it, w') ->
  ∃ c,
    it = row c u w ∧ length c = 8%nat
    ∧ Forall (fun ch => ch ∈ CreateShortUrl.ALPHABET) c
    ∧ outages w 0%nat = None
    ∧ table w !! c = None
    ∧ table w' = <[c := it]> (table w)
    ∧ environ w' = environ w
    ∧ outages w' = sdrop 1 (outages w)
    ∧ requests w' = PutItem it :: requests w.
Proof.
  destruct (attempt_cases u w) as (c & e & Hlen & Hall & ->).
  destruct (outages w 0%nat) eqn:Ho; [done|].
  destruct (table w !! c) eqn:Ht; [done|].
  intros [= <- <-]. by exists c.
Qed.

Lemma attempt_refused (u : str) (w : World) (e : exn) (w' : World) :
  attempt u w = (Raise e, w') ->
  ∃ ce it,
    e = ClientError_ ce
    ∧ (outages w 0%nat = Some ce
       ∨ outages w 0%nat = None ∧ ce = conditional_check_failed
         ∧ is_Some (table w !! short_code it))
    ∧ table w' = table w
    ∧ environ w' = environ w
    ∧ outages w' = sdrop 1 (outages w)
    ∧ requests w' = PutItem it :: requests w.
Proof.
  destruct (attempt_cases u w) as (c & e' & Hlen & Hall & ->).
  destruct (outages w 0%nat) as [ce|] eqn:Ho.
  { intros [= <- <-]. exists ce, (row c u w). auto 10. }
  destruct (table w !! c) eqn:Ht; [|done].
  intros [= <- <-]. exists conditional_check_failed, (row c u w).
  split; [done|]. split; [|done]. right. cbn [row short_code]. rewrite Ht. eauto.
Qed.

(** ** Retries *)

Lemma retries_S_inv (k : nat) (u : str) (w w2 : World) :
  retries (S k) u w = Some w2 ->
  ∃ ce w1,
    attempt u w = (Raise (ClientError_ ce), w1)
    ∧ Code ce = ConditionalCheckFailedException
    ∧ retries k u w1 = Some w2.
Proof.
  cbn [retries]. destruct (attempt u w) as [[it|[ce| | | |]] w1]; try done.
  case_bool_decide; [|done]. intros Hk. by exists ce, w1.
Qed.

Lemma retries_frame (k : nat) (u : str) (w w1 : World) :
  retries k u w = Some w1 ->
  table w1 = table w ∧ environ w1 = environ w
  ∧ ∃ puts, requests w1 = puts ++ requests w
            ∧ length puts = k ∧ Forall is_put puts.
Proof.
  revert w. induction k as [|k IH]; intros w.
  - intros [= <-]. do 2 (split; [done|]). by exists [].
  - intros (ce & w0 & Ha & _ & Hk)%retries_S_inv.
    destruct (attempt_refused _ _ _ _ Ha) as (? & it & _ & _ & Ht & He & _ & Hr).
    destruct (IH _ Hk) as (Ht' & He' & puts & Hr' & Hlen & Hall).
    split; [congruence|]. split; [congruence|].
    exists (puts ++ [PutItem it]). rewrite Hr', Hr, <- app_assoc. split; [done|].
    split; [rewrite length_app; simpl; lia|].
    apply Forall_app. split; [done|]. by repeat constructor.
Qed.

Lemma collision_loop_retries (k n : nat) (u : str) (w w1 : World) :
  retries k u w = Some w1 ->
  CreateShortUrl.collision_loop (k + n) u w = CreateShortUrl.collision_loop n u w1.
Proof.
  revert w. induction k as [|k IH]; intros w.
  - by intros [= <-].
  - intros (ce & w0 & Ha & Hc & Hk)%retries_S_inv.
    change (S k + n)%nat with (S (k + n)). rewrite collision_loop_S, Ha.
    rewrite bool_decide_eq_true_2 by done. by apply IH.
Qed.

(** ** The collision loop *)

Lemma retries_S (k : nat) (u : str) (w w1 w2 : World) (ce : ClientError) :
  attempt u w = (Raise (ClientError_ ce), w1) ->
  Code ce = ConditionalCheckFailedException ->
  retries k u w1 = Some w2 ->
  retries (S k) u w = Some w2.
Proof. intros Ha Hc Hk. cbn [retries]. rewrite Ha. by rewrite bool_decide_eq_true_2. Qed.

Lemma collision_loop_run (n : nat) (u : str) (w : World) :
  loop_run n u w (CreateShortUrl.collision_loop n u w).1
                 (CreateShortUrl.collision_loop n u w).2.
Proof.
  revert w. induction n as [|n IH]; intros w.
  - by apply run_exhausted.
  - rewrite collision_loop_S.
    destruct (attempt u w) as [[it|e] w1] eqn:Ha.
    + pose proof (run_stored (S n) u w 0 w it w1 ltac:(lia) eq_refl Ha) as Hrun.
      destruct (environ w1 !! "BASE_URL"); exact Hrun.
    + destruct (attempt_refused _ _ _ _ Ha) as (ce & ? & -> & _).
      case_bool_decide as Hc.
      * destruct (IH w1) as [w' Hk | k w2 ce' w' Hlt Hk Ha' Hc' | k w2 it w' Hlt Hk Ha'].
        -- apply run_exhausted. exact (retries_S _ _ _ _ _ _ Ha Hc Hk).
        -- apply (run_failed _ _ _ (S k) w2); [lia| |done..].
           exact (retries_S _ _ _ _ _ _ Ha Hc Hk).
        -- apply (run_stored _ _ _ (S k) w2); [lia| |done].
           exact (retries_S _ _ _ _ _ _ Ha Hc Hk).
      * apply (run_failed _ _ _ 0%nat w); [lia|done..].
Qed.

(** ** The create handler before the loop *)

Lemma create_malformed (event : Event.t) (w : World) :
  Json.loads (str_or (Event.body event) "{}") = None ->
  CreateShortUrl.lambda_handler event w
  = (Ok (bad_request "Request body must be valid JSON"), w).
Proof.
  intros Hl. unfold CreateShortUrl.lambda_handler, CreateShortUrl.json_loads.
  run. by rewrite Hl.
Qed.

Lemma create_missing (event : Event.t) (members : list (str * Json.value)) (w : World) :
  Json.loads (str_or (Event.body event) "{}") = Some (Json.JObject members) ->
  Json.members_get "long_url" members = None ->
  CreateShortUrl.lambda_handler event w = (Ok (bad_request "long_url is required"), w).
Proof.
  intros Hl Hm. unfold CreateShortUrl.lambda_handler, CreateShortUrl.json_loads.
  run. rewrite Hl. cbn. run. by rewrite Hm.
Qed.

Lemma create_submits (event : Event.t) (raw : str) (w : World) :
  submits event raw ->
  CreateShortUrl.lambda_handler event w =
    if bool_decide (Py.strip raw = "") then
      (Ok (bad_request "long_url is required"), w)
    else if negb (Py.startswith (Py.strip raw) "http://"
                  || Py.startswith (Py.strip raw) "https://") then
      (Ok (bad_request "long_url must start with http:// or https://"), w)
    else CreateShortUrl.collision_loop 5 (Py.strip raw) w.
Proof.
  intros (members & Hl & Hm).
  unfold CreateShortUrl.lambda_handler, CreateShortUrl.json_loads.
  run. rewrite Hl. cbn [CreateShortUrl.get CreateShortUrl.strip]. run.
  rewrite Hm. cbn [from_option id CreateShortUrl.strip]. run.
  destruct (bool_decide _); [reflexivity|].
  destruct (negb _); reflexivity.
Qed.

Lemma create_valid (event : Event.t) (raw : str) (w : World) :
  submits event raw -> valid_long_url (Py.strip raw) ->
  CreateShortUrl.lambda_handler event w
  = CreateShortUrl.collision_loop 5 (Py.strip raw) w.
Proof.
  intros Hs [Hne Hp]. rewrite (create_submits _ _ _ Hs).
  rewrite bool_decide_eq_false_2 by done. by rewrite Hp.
Qed.

(** A request that is answered with 201 went through the loop. *)
Lemma create_201_inv (event : Event.t) (w : World) (r : Response) (w' : World) :
  CreateShortUrl.lambda_handler event w = (Ok r, w') ->
  statusCode r = 201%Z ->
  ∃ raw,
    submits event raw ∧ valid_long_url (Py.strip raw)
    ∧ CreateShortUrl.collision_loop 5 (Py.strip raw) w = (Ok r, w').
Proof.
  intros Hrun H201.
  destruct (Json.loads (str_or (Event.body event) "{}")) as [v|] eqn:Hl.
  2:{ rewrite create_malformed in Hrun by done. by injection Hrun as <- <-. }
  destruct v as [| | | |?|members];
    try (unfold CreateShortUrl.lambda_handler, CreateShortUrl.json_loads in Hrun;
         run; by rewrite Hl in Hrun).
  destruct (Json.members_get "long_url" members) as [v|] eqn:Hm.
  2:{ rewrite (create_missing _ _ _ Hl Hm) in Hrun. by injection Hrun as <- <-. }
  destruct v as [| | |raw| |];
    try (unfold CreateShortUrl.lambda_handler, CreateShortUrl.json_loads in Hrun;
         run; rewrite Hl in Hrun; cbn in Hrun; run; by rewrite Hm in Hrun).
  assert (Hs : submits event raw) by by exists members.
  exists raw. split; [done|].
  rewrite (create_submits _ _ _ Hs) in Hrun.
  case_bool_decide as He; [by injection Hrun as <- <-|].
  destruct (negb _) eqn:Hp; [by injection Hrun as <- <-|].
  apply negb_false_iff in Hp. done.
Qed.

(** A request answered with 201 ran the loop to a stored row. *)
Lemma create_201_run (event : Event.t) (w : World) (r : Response) (w' : World) :
  CreateShortUrl.lambda_handler event w = (Ok r, w') ->
  statusCode r = 201%Z ->
  ∃ raw k w1 it base,
    submits event raw ∧ valid_long_url (Py.strip raw)
    ∧ (k < 5)%nat ∧ retries k (Py.strip raw) w = Some w1
    ∧ attempt (Py.strip raw) w1 = (Ok it, w')
    ∧ environ w' !! "BASE_URL" = Some base
    ∧ r = created_response base (short_code it) (Py.strip raw).
Proof.
  intros Hrun H201.
  destruct (create_201_inv _ _ _ _ Hrun H201) as (raw & Hs & Hv & Hloop).
  exists raw.
  pose proof (collision_loop_run 5 (Py.strip raw) w) as Hcases.
  rewrite Hloop in Hcases. cbn [fst snd] in Hcases.
  inversion Hcases as [w2 Hk Hr | k w1 ce w2 Hlt Hk Ha Hc Hr | k w1 it w2 Hlt Hk Ha Hr]; subst.
  - done.
  - done.
  - destruct (environ w' !! "BASE_URL") as [base|] eqn:Hb; [|done].
    injection Hr as <-. by exists k, w1, it, base.
Qed.

(** ** The redirect handler *)

Lemma redirect_found (event : Event.t) (w : World) (it : Item) :
  Py.strip (path_short_code event) ≠ "" ->
  outages w 0%nat = None ->
  table w !! Py.strip (path_short_code event) = Some it ->
  RedirectUrl.lambda_handler event w
  = (Ok (moved_permanently (long_url it)),
     sent (GetItem (Py.strip (path_short_code event))) w).
Proof.
  intros Hne Ho Ht. unfold RedirectUrl.lambda_handler. cbv zeta.
  fold (path_short_code event).
  rewrite bool_decide_eq_false_2 by done.
  unfold try_except, get_item. by rewrite Ho, Ht.
Qed.

Lemma redirect_not_found (event : Event.t) (w : World) :
  Py.strip (path_short_code event) ≠ "" ->
  outages w 0%nat = None ->
  table w !! Py.strip (path_short_code event) = None ->
  RedirectUrl.lambda_handler event w
  = (Ok (not_found (Py.strip (path_short_code event))),
     sent (GetItem (Py.strip (path_short_code event))) w).
Proof.
  intros Hne Ho Ht. unfold RedirectUrl.lambda_handler. cbv zeta.
  fold (path_short_code event).
  rewrite bool_decide_eq_false_2 by done.
  unfold try_except, get_item. by rewrite Ho, Ht.
Qed.

Lemma code_strip (c : str) :
  Forall (fun ch => ch ∈ CreateShortUrl.ALPHABET) c -> Py.strip c = c.
Proof.
  intros Hall. apply strip_no_space.
  eapply Forall_impl; [exact Hall|]. intros ch Hin. apply alnum_not_space.
  pose proof ALPHABET_alnum as Hal. rewrite Forall_forall in Hal. by apply Hal.
Qed.

Lemma ttl_sweep_expired (now : Z) (w : World) (c : str) (it : Item) :
  table w !! c = Some it -> (expires_at it < now)%Z ->
  table (ttl_sweep now w) !! c = None.
Proof.
  intros Ht Hexp. cbn. apply map_lookup_filter_None. right.
  intros it' Ht'. cbn. assert (it' = it) as -> by congruence. lia.
Qed.

Lemma ttl_sweep_live (now : Z) (w : World) (c : str) (it : Item) :
  table w !! c = Some it -> (now <= expires_at it)%Z ->
  table (ttl_sweep now w) !! c = Some it.
Proof. intros Ht Hexp. cbn. by apply map_lookup_filter_Some. Qed.

(** ** The decoder never runs out of fuel *)

Module JsonFacts.
Import Json.

Lemma lstrip_while_length (p : N -> bool) (s : str) :
(length (Py.lstrip_while p s) <= length s)%nat.
Proof. induction s as [|c r IH]; simpl; [lia|]. destruct (p c); simpl; lia. Qed.

Lemma skip_ws_length (s : str) : (length (skip_ws s) <= length s)%nat.
Proof. apply lstrip_while_length. Qed.

Lemma parse_map_Parsed {A B} (f : A -> B) (p : parse A) (b : B) (r : str) :
parse_map f p = Parsed b r -> ∃ a, p = Parsed a r.
Proof. destruct p; intros [=]; subst; eauto. Qed.

Lemma parse_map_OutOfFuel {A B} (f : A -> B) (p : parse A) :
parse_map f p = OutOfFuel -> p = OutOfFuel.
Proof. by destruct p. Qed.


Lemma consumes_Invalid {A} (s : str) : consumes (@Invalid A) s.
Proof. by split. Qed.

Lemma consumes_Parsed {A} (a : A) (r s : str) :
(length r < length s)%nat -> consumes (Parsed a r) s.
Proof. intros Hlt. split; [done|]. by intros ? ? [= _ <-]. Qed.

Lemma consumes_map {A B} (f : A -> B) (p : parse A) (s s' : str) :
consumes p s' -> (length s' <= length s)%nat -> consumes (parse_map f p) s.
Proof.
intros [Hfuel Hlen] Hle. split.
- by intros ?%parse_map_OutOfFuel.
- intros b r (a & ->)%parse_map_Parsed. specialize (Hlen a r eq_refl). lia.
Qed.

Lemma scanstring_consumes (n : nat) (s : str) :
(length s < n)%nat -> consumes (scanstring s) (0%N :: s).
Proof.
revert s. induction n as [|n IH]; intros s Hn; [lia|].
assert (Hrec : ∀ (c : N) (s' : str),
           (length s' < length s)%nat ->
           consumes (parse_map (cons c) (scanstring s')) (0%N :: s)).
{ intros c s' Hlt. apply (consumes_map _ _ _ (0%N :: s')); [|simpl; lia].
  apply IH. lia. }
destruct s as [|c r]; [apply consumes_Invalid|].
cbn [scanstring].
destruct (c =? 34)%N; [apply consumes_Parsed; simpl; lia|].
destruct (c =? 92)%N.
2:{ destruct (c <? 32)%N; [apply consumes_Invalid|]. apply Hrec. simpl; lia. }
destruct r as [|e r0]; [apply consumes_Invalid|].
destruct (e =? 117)%N.
2:{ destruct (unescape e); [|apply consumes_Invalid]. apply Hrec. simpl; lia. }
destruct r0 as [|h1 [|h2 [|h3 [|h4 r1]]]]; try apply consumes_Invalid.
destruct (hex4 h1 h2 h3 h4) as [uni|]; [|apply consumes_Invalid].
destruct r1 as [|b [|u [|l1 [|l2 [|l3 [|l4 r2]]]]]];
  try (apply Hrec; simpl; lia).
destruct (is_high_surrogate uni && (b =? 92)%N && (u =? 117)%N);
  [|apply Hrec; simpl; lia].
destruct (hex4 l1 l2 l3 l4) as [uni2|]; [|apply consumes_Invalid].
destruct (is_low_surrogate uni2); apply Hrec; simpl; lia.
Qed.

Lemma span_digits_length (s : str) : (length (span_digits s).2 <= length s)%nat.
Proof.
induction s as [|c r IH]; simpl; [lia|].
destruct (is_digit c); [|simpl; lia].
destruct (span_digits r); simpl in *; lia.
Qed.

Lemma after_prefix_length (p s r : str) :
after_prefix p s = Some r -> length s = (length p + length r)%nat.
Proof.
revert s. induction p as [|a p IH]; intros [|b s]; simpl; try done.
- by intros [= <-].
- by intros [= <-].
- destruct (a =? b)%N; [|done]. intros H%IH. lia.
Qed.

Lemma scan_number_length (s lexeme r : str) :
scan_number s = Some (lexeme, r) -> (length r < length s)%nat.
Proof.
unfold scan_number.
destruct (scan_int s) as [[int r0]|] eqn:Hint; [|done].
assert (H0 : (length r0 < length s)%nat).
{ unfold scan_int in Hint.
  destruct s as [|c s']; [done|].
  destruct (c =? 45)%N.
  - destruct s' as [|d s'']; [done|].
    destruct (d =? 48)%N; [injection Hint as _ <-; simpl; lia|].
    destruct (is_digit d); [|done].
    pose proof (span_digits_length s'') as Hs.
    destruct (span_digits s''). injection Hint as _ <-. simpl in *. lia.
  - destruct (c =? 48)%N; [injection Hint as _ <-; simpl; lia|].
    destruct (is_digit c); [|done].
    pose proof (span_digits_length s') as Hs.
    destruct (span_digits s'). injection Hint as _ <-. simpl in *. lia. }
assert (H1 : (length (scan_frac r0).2 <= length r0)%nat).
{ unfold scan_frac. destruct r0 as [|c r1]; [done|].
  destruct (c =? 46)%N; [|done].
  pose proof (span_digits_length r1) as Hs.
  destruct (span_digits r1) as [[|? ?] ?]; simpl in *; lia. }
destruct (scan_frac r0) as [frac r1].
assert (H2 : (length (scan_exp r1).2 <= length r1)%nat).
{ unfold scan_exp. destruct r1 as [|c r2]; [done|].
  destruct ((c =? 101) || (c =? 69))%N; [|done].
  destruct r2 as [|g r3].
  - by cbn.
  - destruct ((g =? 45) || (g =? 43))%N.
    + pose proof (span_digits_length r3) as Hs.
      destruct (span_digits r3) as [[|? ?] ?]; simpl in *; lia.
    + pose proof (span_digits_length (g :: r3)) as Hs.
      destruct (span_digits (g :: r3)) as [[|? ?] ?]; simpl in *; lia. }
destruct (scan_exp r1) as [exp r2]. intros [= _ <-]. simpl in *. lia.
Qed.

Lemma scan_atom_consumes (s : str) : consumes (scan_atom s) s.
Proof.
unfold scan_atom.
repeat match goal with
  | |- context [after_prefix ?p s] =>
      let H := fresh "H" in
      destruct (after_prefix p s) eqn:H;
      [apply after_prefix_length in H; apply consumes_Parsed; simpl in H; lia|]
  | |- context [scan_number s] =>
      let H := fresh "H" in
      destruct (scan_number s) as [[? ?]|] eqn:H;
      [apply scan_number_length in H; by apply consumes_Parsed|]
  end.
apply consumes_Invalid.
Qed.

Lemma parse_consumes (fuel : nat) :
(∀ s, (2 * length s < fuel)%nat -> consumes (parse_value fuel s) s)
∧ (∀ s, (2 * length s + 1 < fuel)%nat -> consumes (parse_elements fuel s) s)
∧ (∀ s, (2 * length s + 1 < fuel)%nat -> consumes (parse_members fuel s) s).
Proof.
induction fuel as [|fuel (IHv & IHe & IHm)]; [repeat split; intros; lia|].
split; [|split]; intros s Hfuel; cbn [parse_value parse_elements parse_members].
- destruct s as [|c r]; [apply consumes_Invalid|].
  cbn [length] in Hfuel.
  pose proof (skip_ws_length r) as Hws.
  destruct (c =? 34)%N.
  { apply (consumes_map _ _ _ (0%N :: r)); [|simpl; lia].
    apply (scanstring_consumes (S (length r))). lia. }
  destruct (c =? 123)%N.
  { destruct (skip_ws r) as [|d r']; [apply consumes_Invalid|].
    cbn [length] in Hws.
    destruct (d =? 125)%N; [apply consumes_Parsed; simpl; lia|].
    apply (consumes_map _ _ _ (d :: r')); [|simpl; lia].
    apply IHm. simpl. lia. }
  destruct (c =? 91)%N; [|apply scan_atom_consumes].
  destruct (skip_ws r) as [|d r']; [apply consumes_Invalid|].
  cbn [length] in Hws.
  destruct (d =? 93)%N; [apply consumes_Parsed; simpl; lia|].
  apply (consumes_map _ _ _ (d :: r')); [|simpl; lia].
  apply IHe. simpl. lia.
- destruct (IHv s ltac:(lia)) as [Hnf Hlen].
  destruct (parse_value fuel s) as [v r1| |]; [|apply consumes_Invalid|done].
  specialize (Hlen v r1 eq_refl).
  pose proof (skip_ws_length r1) as Hws.
  destruct (skip_ws r1) as [|d r2]; [apply consumes_Invalid|].
  cbn [length] in Hws.
  destruct (d =? 93)%N; [apply consumes_Parsed; lia|].
  destruct (d =? 44)%N; [|apply consumes_Invalid].
  pose proof (skip_ws_length r2) as Hws2.
  apply (consumes_map _ _ _ (skip_ws r2)); [|lia].
  apply IHe. lia.
- destruct s as [|q r]; [apply consumes_Invalid|].
  cbn [length] in Hfuel.
  destruct (q =? 34)%N; [|apply consumes_Invalid].
  destruct (scanstring_consumes (S (length r)) r ltac:(lia)) as [Hnf Hlen].
  destruct (scanstring r) as [key r1| |]; [|apply consumes_Invalid|done].
  specialize (Hlen key r1 eq_refl). cbn [length] in Hlen.
  pose proof (skip_ws_length r1) as Hws.
  destruct (skip_ws r1) as [|c r2]; [apply consumes_Invalid|].
  cbn [length] in Hws.
  destruct (c =? 58)%N; [|apply consumes_Invalid].
  pose proof (skip_ws_length r2) as Hws2.
  destruct (IHv (skip_ws r2) ltac:(lia)) as [Hnf' Hlen'].
  destruct (parse_value fuel (skip_ws r2)) as [v r3| |];
    [|apply consumes_Invalid|done].
  specialize (Hlen' v r3 eq_refl).
  pose proof (skip_ws_length r3) as Hws3.
  destruct (skip_ws r3) as [|d r4]; [apply consumes_Invalid|].
  cbn [length] in Hws3.
  destruct (d =? 125)%N; [apply consumes_Parsed; simpl; lia|].
  destruct (d =? 44)%N; [|apply consumes_Invalid].
  pose proof (skip_ws_length r4) as Hws4.
  apply (consumes_map _ _ _ (skip_ws r4)); [|simpl; lia].
  apply IHm. lia.
Qed.

(** [json.loads] ends on every string: a result of [None] is a
  [JSONDecodeError], never a lack of fuel. *)
Lemma decode_total (s : str) : decode s ≠ OutOfFuel.
Proof.
unfold decode.
pose proof (skip_ws_length s) as Hws.
destruct (parse_consumes (2 * length s + 1)) as (Hv & _).
destruct (Hv (skip_ws s) ltac:(lia)) as [Hnf _].
destruct (parse_value _ (skip_ws s)) as [v rest| |]; [|done..].
by destruct (skip_ws rest).
Qed.

Lemma loads_None (s : str) : loads s = None <-> decode s = Invalid.
Proof.
unfold loads. pose proof (decode_total s).
by destruct (decode s).
Qed.

End JsonFacts.

(** ** Frames *)

(** Whatever its ending, a run of the loop sends at most [n] requests,
    all of them puts, and leaves every existing row in place. *)
Lemma loop_run_frame (n : nat) (u : str) (w : World) (res : result Response) (w' : World) :
  loop_run n u w res w' ->
  (∃ puts, requests w' = puts ++ requests w
           ∧ (length puts <= n)%nat ∧ Forall is_put puts)
  ∧ ∀ c v, table w !! c = Some v -> table w' !! c = Some v.
Proof.
  intros [w5 Hk | k w1 ce w2 Hlt Hk Ha Hc | k w1 it w2 Hlt Hk Ha].
  - destruct (retries_frame _ _ _ _ Hk) as (Ht & _ & puts & Hr & Hlen & Hall).
    split; [exists puts; split; [done|]; split; [lia|done] |].
    intros c v. by rewrite Ht.
  - destruct (retries_frame _ _ _ _ Hk) as (Ht & _ & puts & Hr & Hlen & Hall).
    destruct (attempt_refused _ _ _ _ Ha) as (? & it & _ & _ & Ht' & _ & _ & Hr').
    split.
    + exists (PutItem it :: puts). rewrite Hr', Hr. split; [done|].
      split; [simpl; lia|]. by constructor.
    + intros c v. by rewrite Ht', Ht.
  - destruct (retries_frame _ _ _ _ Hk) as (Ht & _ & puts & Hr & Hlen & Hall).
    destruct (attempt_stored _ _ _ _ Ha) as (c0 & _ & _ & _ & _ & Hnone & Hins & _ & _ & Hr').
    split.
    + exists (PutItem it :: puts). rewrite Hr', Hr. split; [done|].
      split; [simpl; lia|]. by constructor.
    + intros c v Hv. rewrite Hins, lookup_insert_ne; [congruence|].
      intros <-. congruence.
Qed.

Lemma submits_unique (event : Event.t) (raw raw' : str) :
  submits event raw -> submits event raw' -> raw = raw'.
Proof. intros (m & Hl & Hm) (m' & Hl' & Hm'). congruence. Qed.

Lemma path_short_code_fetch (code : str) : path_short_code (fetch code) = code.
Proof. unfold path_short_code, fetch. cbn. by rewrite lookup_singleton_eq. Qed.

(** The row a 201 answer announces is in the table afterwards, under the
    announced code, with the stripped long URL. *)
Lemma create_201_row (event : Event.t) (raw : str) (w : World) (r : Response) (w' : World) :
  submits event raw ->
  CreateShortUrl.lambda_handler event w = (Ok r, w') ->
  statusCode r = 201%Z ->
  ∃ base it w1,
    r = created_response base (short_code it) (Py.strip raw)
    ∧ attempt (Py.strip raw) w1 = (Ok it, w')
    ∧ table w' !! short_code it = Some it
    ∧ long_url it = Py.strip raw
    ∧ Py.strip (short_code it) = short_code it
    ∧ short_code it ≠ "".
Proof.
  intros Hs Hrun H201.
  destruct (create_201_run _ _ _ _ Hrun H201)
    as (raw' & k & w1 & it & base & Hs' & _ & _ & _ & Ha & _ & ->).
  rewrite <- (submits_unique _ _ _ Hs Hs') in *.
  destruct (attempt_stored _ _ _ _ Ha) as (c & Hit & Hlen & Hall & _ & _ & Hins & _).
  assert (Hc : short_code it = c) by by rewrite Hit.
  exists base, it, w1. rewrite Hc. split; [done|]. split; [done|].
  split; [by rewrite Hins, lookup_insert_eq|].
  split; [by rewrite Hit|].
  split; [by apply code_strip|].
  intros ->. done.
Qed.

(** ** Timestamps *)

Lemma attempt_timestamps (u : str) (w : World) (it : Item) (w' : World) :
  attempt u w = (Ok it, w') ->
  created_at it = clock w 0%nat
  ∧ expires_at it = (clock w 1%nat + ninety_days)%Z.
Proof.
  intros Ha. destruct (attempt_stored _ _ _ _ Ha) as (c & -> & _). done.
Qed.

(** When the clock does not tick between the two readings of an attempt,
    the row it stores expires 90 days after its creation. *)
Lemma attempt_same_second (u : str) (w : World) (it : Item) (w' : World) :
  attempt u w = (Ok it, w') ->
  clock w 1%nat = clock w 0%nat ->
  expires_at it = (created_at it + ninety_days)%Z.
Proof.
  intros Ha Hsame. destruct (attempt_timestamps _ _ _ _ Ha) as [-> ->].
  by rewrite Hsame.
Qed.

(** With a clock that never goes back, the row expires no sooner. *)
Lemma attempt_not_sooner (u : str) (w : World) (it : Item) (w' : World) :
  attempt u w = (Ok it, w') ->
  (clock w 0%nat <= clock w 1%nat)%Z ->
  (created_at it + ninety_days <= expires_at it)%Z.
Proof.
  intros Ha Hmono. destruct (attempt_timestamps _ _ _ _ Ha) as [-> ->]. lia.
Qed.

(** ** Both handlers, whatever they answer *)

(** The create handler either leaves the world as it was or runs the
    collision loop on a stripped long URL. *)
Lemma create_runs (event : Event.t) (w : World) :
  (CreateShortUrl.lambda_handler event w).2 = w
  ∨ ∃ u, CreateShortUrl.lambda_handler event w = CreateShortUrl.collision_loop 5 u w.
Proof.
  destruct (Json.loads (str_or (Event.body event) "{}")) as [v|] eqn:Hl.
  2:{ left. by rewrite create_malformed. }
  destruct v as [| | | |?|members];
    try (left; unfold CreateShortUrl.lambda_handler, CreateShortUrl.json_loads;
         run; by rewrite Hl).
  destruct (Json.members_get "long_url" members) as [v|] eqn:Hm.
  2:{ left. by rewrite (create_missing _ _ _ Hl Hm). }
  destruct v as [| | |raw| |];
    try (left; unfold CreateShortUrl.lambda_handler, CreateShortUrl.json_loads;
         run; rewrite Hl; cbn; run; by rewrite Hm).
  rewrite (create_submits event raw) by by exists members.
  case_bool_decide; [by left|].
  destruct (negb _); [by left|]. right. by exists (Py.strip raw).
Qed.

(** Whatever it answers, the create handler sends at most 5 requests and
    overwrites no row. *)
Lemma create_frame (event : Event.t) (w : World) :
  (∃ puts, requests (CreateShortUrl.lambda_handler event w).2 = puts ++ requests w
           ∧ (length puts <= 5)%nat ∧ Forall is_put puts)
  ∧ ∀ c v, table w !! c = Some v ->
           table (CreateShortUrl.lambda_handler event w).2 !! c = Some v.
Proof.
  destruct (create_runs event w) as [-> | [u ->]].
  - split; [|done]. exists []. split; [done|]. split; [simpl; lia | constructor].
  - apply (loop_run_frame 5 u w _ _ (collision_loop_run _ _ _)).
Qed.

(** Two create requests in a row, both answered with 201, announce two
    different codes, and both rows are in the table afterwards. *)
Lemma two_creates_distinct
    (event1 event2 : Event.t) (raw1 raw2 : str)
    (w : World) (r1 : Response) (w1 : World) (r2 : Response) (w2 : World) :
  submits event1 raw1 -> submits event2 raw2 ->
  CreateShortUrl.lambda_handler event1 w = (Ok r1, w1) -> statusCode r1 = 201%Z ->
  CreateShortUrl.lambda_handler event2 w1 = (Ok r2, w2) -> statusCode r2 = 201%Z ->
  ∃ base1 it1 base2 it2,
    r1 = created_response base1 (short_code it1) (Py.strip raw1)
    ∧ r2 = created_response base2 (short_code it2) (Py.strip raw2)
    ∧ short_code it1 ≠ short_code it2
    ∧ table w2 !! short_code it1 = Some it1 ∧ long_url it1 = Py.strip raw1
    ∧ table w2 !! short_code it2 = Some it2 ∧ long_url it2 = Py.strip raw2.
Proof.
  intros Hs1 Hs2 Hrun1 H1 Hrun2 H2.
  destruct (create_201_row _ _ _ _ _ Hs1 Hrun1 H1)
    as (base1 & it1 & _ & -> & _ & Ht1 & Hu1 & _).
  destruct (create_201_run _ _ _ _ Hrun2 H2)
    as (raw' & k & w1' & it2 & base2 & Hs2' & _ & _ & Hk & Ha & _ & ->).
  rewrite <- (submits_unique _ _ _ Hs2 Hs2') in *.
  destruct (retries_frame _ _ _ _ Hk) as (Htk & _).
  destruct (attempt_stored _ _ _ _ Ha) as (c & Hit & _ & _ & _ & Hnone & Hins & _).
  assert (Hc : short_code it2 = c) by by rewrite Hit.
  rewrite Htk in Hnone, Hins.
  assert (Hne : short_code it1 ≠ c) by congruence.
  exists base1, it1, base2, it2. rewrite Hc, Hins.
  do 3 (split; [done|]).
  split; [by rewrite lookup_insert_ne|]. split; [done|].
  split; [by rewrite lookup_insert_eq | by rewrite Hit].
Qed.

(** The redirect handler only reads: the table is as it was. *)
Lemma redirect_read_only (event : Event.t) (w : World) :
  table (RedirectUrl.lambda_handler event w).2 = table w.
Proof.
  unfold RedirectUrl.lambda_handler. cbv zeta.
  case_bool_decide; [done|].
  unfold try_except, get_item.
  destruct (outages w 0%nat); [done|].
  by destruct (table w !! _).
Qed.

(** A body that decodes to something other than an object, or a
    [long_url] that is not a string, is not answered at all: [body.get]
    or [.strip] raises [AttributeError], which the handler does not
    catch. *)
Example create_array_body_raises :
  CreateShortUrl.lambda_handler (post_body "[]") world0
  = (Raise AttributeError, world0).
Proof. vm_compute. reflexivity. Qed.

Example create_number_field_raises :
  CreateShortUrl.lambda_handler
    (post_body ("{" ++ Json.encode_string "long_url" ++ ": 5}")) world0
  = (Raise AttributeError, world0).
Proof. vm_compute. reflexivity. Qed.

(** * The claims *)

(** C1.  When the create handler answers 201, the answer carries the
    [short_code] of the row it stored; that code was absent from the table
    when the handler started and still absent just before the insert (the
    attempts before it, fewer than 5, were all answered with a
    conditional-check failure and left the table as it was); the table
    afterwards is the old one with that one row added, so every mapping
    that existed is still there, under a different code. *)
Theorem create_inserts_absent_code
    (event : Event.t) (w : World) (r : Response) (w' : World) :
  CreateShortUrl.lambda_handler event w = (Ok r, w') ->
  statusCode r = 201%Z ->
  ∃ raw k w1 it base,
    submits event raw
    ∧ (k < 5)%nat
    ∧ retries k (Py.strip raw) w = Some w1
    ∧ table w1 = table w
    ∧ attempt (Py.strip raw) w1 = (Ok it, w')
    ∧ r = created_response base (short_code it) (Py.strip raw)
    ∧ table w !! short_code it = None
    ∧ table w' = <[short_code it := it]> (table w)
    ∧ ∀ c v, table w !! c = Some v -> c ≠ short_code it ∧ table w' !! c = Some v.
Proof.
  intros Hrun H201.
  destruct (create_201_run _ _ _ _ Hrun H201)
    as (raw & k & w1 & it & base & Hs & _ & Hlt & Hk & Ha & _ & ->).
  destruct (retries_frame _ _ _ _ Hk) as (Ht1 & _).
  destruct (attempt_stored _ _ _ _ Ha) as (c & Hit & _ & _ & _ & Hnone & Hins & _).
  assert (Hc : short_code it = c) by by rewrite Hit.
  exists raw, k, w1, it, base. rewrite Hc.
  rewrite Ht1 in Hnone, Hins.
  repeat (split; [done|]).
  intros c' v Hv.
  assert (c' ≠ c) by congruence.
  split; [done|]. rewrite Hins. by rewrite lookup_insert_ne.
Qed.

Lemma create_inserts_absent_code_witness :
  ∃ raw k w1 it base,
    submits (post "https://example.com/second") raw
    ∧ (k < 5)%nat
    ∧ retries k (Py.strip raw) world1 = Some w1
    ∧ table w1 = table world1
    ∧ attempt (Py.strip raw) w1
      = (Ok it, (CreateShortUrl.lambda_handler (post "https://example.com/second") world1).2)
    ∧ created_response "https://sho.rt/" "bbbbbbbb" "https://example.com/second"
      = created_response base (short_code it) (Py.strip raw)
    ∧ table world1 !! short_code it = None
    ∧ table (CreateShortUrl.lambda_handler (post "https://example.com/second") world1).2
      = <[short_code it := it]> (table world1)
    ∧ ∀ c v, table world1 !! c = Some v ->
             c ≠ short_code it
             ∧ table (CreateShortUrl.lambda_handler
                        (post "https://example.com/second") world1).2 !! c = Some v.
Proof.
  apply (create_inserts_absent_code (post "https://example.com/second") world1
           (created_response "https://sho.rt/" "bbbbbbbb" "https://example.com/second")).
  - vm_compute. reflexivity.
  - reflexivity.
Defined.

(** C2, as stated, fails: ["https://example.com/page "] is a valid long
    URL; the link is created, and the redirect on the returned code is a
    301 whose [Location] is not the long URL that was submitted. *)
Lemma round_trip_raw_counterexample :
  valid_long_url "https://example.com/page "
  ∧ submits (post "https://example.com/page ") "https://example.com/page "
  ∧ (CreateShortUrl.lambda_handler (post "https://example.com/page ") world0).1
    = Ok (created_response "https://sho.rt/" "dkryFMT0" "https://example.com/page")
  ∧ (RedirectUrl.lambda_handler (fetch "dkryFMT0")
       (CreateShortUrl.lambda_handler (post "https://example.com/page ") world0).2).1
    = Ok (moved_permanently "https://example.com/page")
  ∧ headers (moved_permanently "https://example.com/page")
    = [("Location", "https://example.com/page"); ("Access-Control-Allow-Origin", "*")]
  ∧ ("https://example.com/page" : str) ≠ "https://example.com/page ".
Proof.
  split; [split; [done | vm_compute; reflexivity]|].
  split.
  { exists [("long_url", Json.JString "https://example.com/page ")].
    split; vm_compute; reflexivity. }
  repeat split; try (vm_compute; reflexivity). done.
Qed.

(** C2, amended.  When a create request that submits [raw] is answered
    with 201, and the table serves the next read, the redirect on the
    [short_code] of that answer is a 301 with an empty body whose
    [Location] is [raw] with its surrounding whitespace stripped, which
    is [raw] itself when it has none (as for
    ["https://example.com/page"]). *)
Theorem create_then_redirect
    (event : Event.t) (raw : str) (w : World) (r : Response) (w1 : World) :
  submits event raw ->
  CreateShortUrl.lambda_handler event w = (Ok r, w1) ->
  statusCode r = 201%Z ->
  outages w1 0%nat = None ->
  ∃ base code,
    r = created_response base code (Py.strip raw)
    ∧ RedirectUrl.lambda_handler (fetch code) w1
      = (Ok (moved_permanently (Py.strip raw)), sent (GetItem code) w1)
    ∧ statusCode (moved_permanently (Py.strip raw)) = 301%Z
    ∧ headers (moved_permanently (Py.strip raw))
      = [("Location", Py.strip raw); ("Access-Control-Allow-Origin", "*")]
    ∧ body (moved_permanently (Py.strip raw)) = ""
    ∧ (Forall (fun c => Py.isspace c = false) raw -> Py.strip raw = raw).
Proof.
  intros Hs Hrun H201 Ho.
  destruct (create_201_row _ _ _ _ _ Hs Hrun H201)
    as (base & it & w0 & -> & _ & Ht & Hu & Hstrip & Hne).
  exists base, (short_code it). split; [done|]. split.
  - pose proof (redirect_found (fetch (short_code it)) w1 it) as Hfound.
    rewrite path_short_code_fetch, Hstrip, Hu in Hfound. by apply Hfound.
  - do 3 (split; [done|]). apply strip_no_space.
Qed.

Lemma create_then_redirect_witness :
  ∃ base code,
    created_response "https://sho.rt/" "dkryFMT0" "https://example.com/page"
    = created_response base code (Py.strip "https://example.com/page")
    ∧ RedirectUrl.lambda_handler (fetch code)
        (CreateShortUrl.lambda_handler (post "https://example.com/page") world0).2
      = (Ok (moved_permanently (Py.strip "https://example.com/page")),
         sent (GetItem code)
           (CreateShortUrl.lambda_handler (post "https://example.com/page") world0).2)
    ∧ statusCode (moved_permanently (Py.strip "https://example.com/page")) = 301%Z
    ∧ headers (moved_permanently (Py.strip "https://example.com/page"))
      = [("Location", Py.strip "https://example.com/page");
         ("Access-Control-Allow-Origin", "*")]
    ∧ body (moved_permanently (Py.strip "https://example.com/page")) = ""
    ∧ (Forall (fun c => Py.isspace c = false) "https://example.com/page" ->
       Py.strip "https://example.com/page" = "https://example.com/page").
Proof.
  apply (create_then_redirect (post "https://example.com/page")
           "https://example.com/page" world0
           (created_response "https://sho.rt/" "dkryFMT0" "https://example.com/page")).
  - exists [("long_url", Json.JString "https://example.com/page")].
    split; vm_compute; reflexivity.
  - vm_compute. reflexivity.
  - reflexivity.
  - reflexivity.
Defined.

(** The round trip of the specification's example, run. *)
Example round_trip_example :
  (CreateShortUrl.lambda_handler (post "https://example.com/page") world0).1
  = Ok (created_response "https://sho.rt/" "dkryFMT0" "https://example.com/page")
  ∧ (RedirectUrl.lambda_handler (fetch "dkryFMT0")
       (CreateShortUrl.lambda_handler (post "https://example.com/page") world0).2).1
    = Ok (moved_permanently "https://example.com/page").
Proof. split; vm_compute; reflexivity. Qed.

(** C3.  For a valid create request the handler sends at most 5 requests
    to the table, all of them conditional puts; when 5 attempts in a row
    are answered with a conditional-check failure it answers 500 in the
    world those 5 attempts leave: exactly 5 puts were sent, no sixth, and
    the table is as it was. *)
Theorem create_bounded_retries (event : Event.t) (raw : str) (w : World) :
  submits event raw -> valid_long_url (Py.strip raw) ->
  (∃ puts,
     requests (CreateShortUrl.lambda_handler event w).2 = puts ++ requests w
     ∧ (length puts <= 5)%nat ∧ Forall is_put puts)
  ∧ ∀ w5,
      retries 5 (Py.strip raw) w = Some w5 ->
      CreateShortUrl.lambda_handler event w = (Ok exhausted, w5)
      ∧ statusCode exhausted = 500%Z
      ∧ table w5 = table w
      ∧ ∃ puts, requests w5 = puts ++ requests w
                ∧ length puts = 5%nat ∧ Forall is_put puts.
Proof.
  intros Hs Hv. rewrite (create_valid _ _ _ Hs Hv). split.
  - apply (loop_run_frame 5 (Py.strip raw) w _ _ (collision_loop_run _ _ _)).
  - intros w5 Hk.
    pose proof (collision_loop_retries 5 0 _ _ _ Hk) as Hloop.
    change (5 + 0)%nat with 5%nat in Hloop.
    destruct (retries_frame _ _ _ _ Hk) as (Ht & _ & Hputs).
    by rewrite Hloop.
Qed.

Lemma create_bounded_retries_witness :
  (∃ puts,
     requests (CreateShortUrl.lambda_handler (post "https://example.com/page")
                 (answering (replicate 5 (Some conditional_check_failed)) world0)).2
     = puts ++ []
     ∧ (length puts <= 5)%nat ∧ Forall is_put puts)
  ∧ CreateShortUrl.lambda_handler (post "https://example.com/page")
      (answering (replicate 5 (Some conditional_check_failed)) world0)
    = (Ok exhausted,
       (CreateShortUrl.lambda_handler (post "https://example.com/page")
          (answering (replicate 5 (Some conditional_check_failed)) world0)).2)
  ∧ statusCode exhausted = 500%Z
  ∧ table (CreateShortUrl.lambda_handler (post "https://example.com/page")
             (answering (replicate 5 (Some conditional_check_failed)) world0)).2
    = ∅
  ∧ ∃ puts,
      requests (CreateShortUrl.lambda_handler (post "https://example.com/page")
                  (answering (replicate 5 (Some conditional_check_failed)) world0)).2
      = puts ++ []
      ∧ length puts = 5%nat ∧ Forall is_put puts.
Proof.
  destruct (create_bounded_retries (post "https://example.com/page")
              "https://example.com/page"
              (answering (replicate 5 (Some conditional_check_failed)) world0))
    as [Hbound Hexhausted].
  - exists [("long_url", Json.JString "https://example.com/page")].
    split; vm_compute; reflexivity.
  - split; [done | vm_compute; reflexivity].
  - split; [exact Hbound|]. apply Hexhausted. vm_compute. reflexivity.
Defined.

(** C4.  For a valid create request, when an attempt (after [k < 5]
    attempts answered with a conditional-check failure) is answered with
    any other store error, the handler answers 500 with [error] and
    [detail] at once, in the world that attempt leaves: [k + 1] puts were
    sent and no more, and the table is as it was. *)
Theorem create_surfaces_store_error
    (event : Event.t) (raw : str) (w : World)
    (k : nat) (w1 : World) (ce : ClientError) (w' : World) :
  submits event raw -> valid_long_url (Py.strip raw) ->
  (k < 5)%nat ->
  retries k (Py.strip raw) w = Some w1 ->
  attempt (Py.strip raw) w1 = (Raise (ClientError_ ce), w') ->
  Code ce ≠ ConditionalCheckFailedException ->
  CreateShortUrl.lambda_handler event w = (Ok (database_error ce), w')
  ∧ statusCode (database_error ce) = 500%Z
  ∧ body (database_error ce)
    = Json.dumps [("error", "Database error"); ("detail", str_ClientError ce)]
  ∧ table w' = table w
  ∧ ∃ puts, requests w' = puts ++ requests w
            ∧ length puts = S k ∧ Forall is_put puts.
Proof.
  intros Hs Hv Hlt Hk Ha Hc. rewrite (create_valid _ _ _ Hs Hv).
  replace 5%nat with (k + S (4 - k))%nat by lia.
  rewrite (collision_loop_retries _ _ _ _ _ Hk), collision_loop_S, Ha.
  rewrite bool_decide_eq_false_2 by done.
  destruct (retries_frame _ _ _ _ Hk) as (Ht & _ & puts & Hr & Hlen & Hall).
  destruct (attempt_refused _ _ _ _ Ha) as (? & it & _ & _ & Ht' & _ & _ & Hr').
  do 3 (split; [done|]). split; [congruence|].
  exists (PutItem it :: puts). rewrite Hr', Hr. split; [done|].
  split; [simpl; lia|]. by constructor.
Qed.

Lemma create_surfaces_store_error_witness :
  CreateShortUrl.lambda_handler (post "https://example.com/page")
    (answering [Some conditional_check_failed; Some throttled] world0)
  = (Ok (database_error throttled),
     (CreateShortUrl.lambda_handler (post "https://example.com/page")
        (answering [Some conditional_check_failed; Some throttled] world0)).2)
  ∧ statusCode (database_error throttled) = 500%Z
  ∧ body (database_error throttled)
    = Json.dumps [("error", "Database error"); ("detail", str_ClientError throttled)]
  ∧ table (CreateShortUrl.lambda_handler (post "https://example.com/page")
             (answering [Some conditional_check_failed; Some throttled] world0)).2
    = ∅
  ∧ ∃ puts,
      requests (CreateShortUrl.lambda_handler (post "https://example.com/page")
                  (answering [Some conditional_check_failed; Some throttled] world0)).2
      = puts ++ []
      ∧ length puts = 2%nat ∧ Forall is_put puts.
Proof.
  apply (create_surfaces_store_error (post "https://example.com/page")
           "https://example.com/page"
           (answering [Some conditional_check_failed; Some throttled] world0)
           1
           (attempt "https://example.com/page"
              (answering [Some conditional_check_failed; Some throttled] world0)).2).
  - exists [("long_url", Json.JString "https://example.com/page")].
    split; vm_compute; reflexivity.
  - split; [done | vm_compute; reflexivity].
  - lia.
  - vm_compute. reflexivity.
  - vm_compute. reflexivity.
  - vm_compute. intros [=].
Defined.

(** C5.  Whatever the random source draws, [generate_short_code] returns a
    string of exactly 8 characters, each one taken from the alphabet; the
    alphabet is the 62 distinct characters of [[A-Za-z0-9]]; hence the
    [short_code] of every 201 answer of the create handler has exactly 8
    characters of [[A-Za-z0-9]]. *)
Theorem generate_short_code_shape :
  (∀ w : World,
     ∃ code w',
       CreateShortUrl.generate_short_code w = (Ok code, w')
       ∧ length code = 8%nat
       ∧ Forall (fun c => c ∈ CreateShortUrl.ALPHABET) code)
  ∧ (length CreateShortUrl.ALPHABET = 62%nat
     ∧ NoDup CreateShortUrl.ALPHABET
     ∧ ∀ c, c ∈ CreateShortUrl.ALPHABET ↔ alnum c = true)
  ∧ (∀ event w r w',
       CreateShortUrl.lambda_handler event w = (Ok r, w') ->
       statusCode r = 201%Z ->
       ∃ base code u,
         r = created_response base code u
         ∧ length code = 8%nat
         ∧ Forall (fun c => alnum c = true) code).
Proof.
  pose proof ALPHABET_alnum as Hal. rewrite Forall_forall in Hal.
  split; [|split].
  - intros w. destruct (generate_short_code_runs w) as (c & e & Hg & Hlen & Hall).
    by exists c, (set_entropy (fun _ => e) w).
  - split; [apply ALPHABET_length|]. split; [apply ALPHABET_NoDup|].
    intros c. split; [apply Hal | apply alnum_ALPHABET].
  - intros event w r w' Hrun H201.
    destruct (create_201_run _ _ _ _ Hrun H201)
      as (raw & k & w1 & it & base & _ & _ & _ & _ & Ha & _ & ->).
    destruct (attempt_stored _ _ _ _ Ha) as (c & -> & Hlen & Hall & _).
    exists base, c, (Py.strip raw). split; [done|]. split; [done|].
    eapply Forall_impl; [exact Hall|]. apply Hal.
Qed.

(** C6, as stated, fails: the field [" https://example.com/page"] is not
    empty and starts with neither [http://] nor [https://], yet the
    request is answered with 201 and a row is written. *)
Lemma create_raw_prefix_counterexample :
  submits (post " https://example.com/page") " https://example.com/page"
  ∧ (" https://example.com/page" : str) ≠ ""
  ∧ Py.startswith " https://example.com/page" "http://" = false
  ∧ Py.startswith " https://example.com/page" "https://" = false
  ∧ (CreateShortUrl.lambda_handler (post " https://example.com/page") world0).1
    = Ok (created_response "https://sho.rt/" "dkryFMT0" "https://example.com/page")
  ∧ statusCode (created_response "https://sho.rt/" "dkryFMT0" "https://example.com/page")
    = 201%Z
  ∧ requests (CreateShortUrl.lambda_handler (post " https://example.com/page") world0).2
    = [PutItem {| short_code := "dkryFMT0";
                  long_url := "https://example.com/page";
                  created_at := 1699999999;
                  expires_at := 1707776000 |}].
Proof.
  split.
  { exists [("long_url", Json.JString " https://example.com/page")].
    split; vm_compute; reflexivity. }
  repeat split; try (vm_compute; reflexivity). done.
Qed.

(** C6, amended.  For every create request whose body decodes to a JSON
    object in which [long_url] is absent or a string: when the field is
    absent, or empty once its surrounding whitespace is stripped, the
    handler answers 400 "long_url is required"; when the stripped field is
    not empty and starts with neither [http://] nor [https://], it answers
    400 "long_url must start with http:// or https://".  Either answer
    has an [error] body, and the world is left as it was: nothing is sent
    to the table. *)
Theorem create_rejects_invalid
    (event : Event.t) (members : list (str * Json.value)) (w : World) :
  Json.loads (str_or (Event.body event) "{}") = Some (Json.JObject members) ->
  (Json.members_get "long_url" members = None ->
   CreateShortUrl.lambda_handler event w
   = (Ok (bad_request "long_url is required"), w))
  ∧ (∀ raw,
       Json.members_get "long_url" members = Some (Json.JString raw) ->
       Py.strip raw = "" ->
       CreateShortUrl.lambda_handler event w
       = (Ok (bad_request "long_url is required"), w))
  ∧ (∀ raw,
       Json.members_get "long_url" members = Some (Json.JString raw) ->
       Py.strip raw ≠ "" ->
       Py.startswith (Py.strip raw) "http://" = false ->
       Py.startswith (Py.strip raw) "https://" = false ->
       CreateShortUrl.lambda_handler event w
       = (Ok (bad_request "long_url must start with http:// or https://"), w))
  ∧ ∀ message,
      statusCode (bad_request message) = 400%Z
      ∧ body (bad_request message) = Json.dumps [("error", message)].
Proof.
  intros Hl. split; [|split; [|split]].
  - intros Hm. by apply (create_missing _ members).
  - intros raw Hm He.
    rewrite (create_submits event raw) by by exists members.
    by rewrite bool_decide_eq_true_2.
  - intros raw Hm Hne H1 H2.
    rewrite (create_submits event raw) by by exists members.
    rewrite bool_decide_eq_false_2 by done. by rewrite H1, H2.
  - done.
Qed.

Lemma create_rejects_invalid_witness :
  CreateShortUrl.lambda_handler (post "ftp://x.com") world1
  = (Ok (bad_request "long_url must start with http:// or https://"), world1)
  ∧ CreateShortUrl.lambda_handler (post "") world1
    = (Ok (bad_request "long_url is required"), world1)
  ∧ CreateShortUrl.lambda_handler (post_body "{}") world1
    = (Ok (bad_request "long_url is required"), world1).
Proof.
  destruct (create_rejects_invalid (post "ftp://x.com")
              [("long_url", Json.JString "ftp://x.com")] world1)
    as (_ & _ & Hprefix & _); [vm_compute; reflexivity|].
  destruct (create_rejects_invalid (post "")
              [("long_url", Json.JString "")] world1)
    as (_ & Hempty & _); [vm_compute; reflexivity|].
  destruct (create_rejects_invalid (post_body "{}") [] world1)
    as (Hmissing & _); [vm_compute; reflexivity|].
  split; [|split].
  - apply (Hprefix "ftp://x.com"); [reflexivity | done | reflexivity..].
  - apply (Hempty ""); reflexivity.
  - apply Hmissing. reflexivity.
Defined.




(** C8 on the code.  In [world0] the clock reads 1699999999 for
    [created_at] and, one tick later, 1700000000 for [expires_at]: the
    create request is answered with 201 and the row it stores expires
    7,776,001 seconds after its creation, not 7,776,000. *)
Theorem create_expiry_after_tick :
  ∃ w' it,
    CreateShortUrl.lambda_handler (post "https://example.com/page") world0
    = (Ok (created_response "https://sho.rt/" "dkryFMT0" "https://example.com/page"), w')
    ∧ table w' !! ("dkryFMT0" : str) = Some it
    ∧ created_at it = 1699999999%Z
    ∧ expires_at it = (1699999999 + 7776001)%Z
    ∧ expires_at it ≠ (created_at it + ninety_days)%Z.
Proof.
  exists (CreateShortUrl.lambda_handler (post "https://example.com/page") world0).2,
    {| short_code := "dkryFMT0"; long_url := "https://example.com/page";
       created_at := 1699999999; expires_at := 1707776000 |}.
  split; [vm_compute; reflexivity|].
  split; [vm_compute; reflexivity|].
  do 2 (split; [reflexivity|]). vm_compute. intros [=].
Qed.

(** C9, as stated, fails: the short code [" "] is not empty and is not in
    the table, yet the request is answered with 400, not 404, and the
    table is not even asked. *)
Lemma redirect_blank_code_counterexample :
  path_short_code (fetch " ") = " "
  ∧ (" " : str) ≠ ""
  ∧ table world0 !! (" " : str) = None
  ∧ RedirectUrl.lambda_handler (fetch " ") world0
    = (Ok (RedirectUrl._response 400 [("error", "short_code is required")]), world0)
  ∧ statusCode (RedirectUrl._response 400 [("error", "short_code is required")])
    = 400%Z.
Proof. repeat split; try done; vm_compute; reflexivity. Qed.

(** C9, amended.  For every redirect request whose short code is not
    empty once its surrounding whitespace is stripped: when the table is
    read and holds no row for the stripped code (it never had one, or the
    row has expired and the time-to-live sweep has deleted it), the
    handler answers 404 with an [error] body, after that one read. *)
Theorem redirect_unknown_code (event : Event.t) (w : World) :
  Py.strip (path_short_code event) ≠ "" ->
  outages w 0%nat = None ->
  (table w !! Py.strip (path_short_code event) = None
   ∨ ∃ w0 now it,
       w = ttl_sweep now w0
       ∧ table w0 !! Py.strip (path_short_code event) = Some it
       ∧ (expires_at it < now)%Z) ->
  RedirectUrl.lambda_handler event w
  = (Ok (not_found (Py.strip (path_short_code event))),
     sent (GetItem (Py.strip (path_short_code event))) w)
  ∧ statusCode (not_found (Py.strip (path_short_code event))) = 404%Z
  ∧ body (not_found (Py.strip (path_short_code event)))
    = Json.dumps
        [("error", "Short code '" ++ Py.strip (path_short_code event) ++ "' not found")].
Proof.
  intros Hne Ho Habsent. split; [|done].
  apply redirect_not_found; [done..|].
  destruct Habsent as [Hnone | (w0 & now & it & -> & Ht & Hexp)]; [done|].
  by eapply ttl_sweep_expired.
Qed.

Lemma redirect_unknown_code_witness :
  (RedirectUrl.lambda_handler (fetch " bbbbbbbb ") world1
   = (Ok (not_found "bbbbbbbb"), sent (GetItem "bbbbbbbb") world1)
   ∧ statusCode (not_found "bbbbbbbb") = 404%Z
   ∧ body (not_found "bbbbbbbb")
     = Json.dumps [("error", "Short code 'bbbbbbbb' not found")])
  ∧ (RedirectUrl.lambda_handler (fetch "aaaaaaaa") (ttl_sweep 1700000000 world1)
     = (Ok (not_found "aaaaaaaa"),
        sent (GetItem "aaaaaaaa") (ttl_sweep 1700000000 world1))
     ∧ statusCode (not_found "aaaaaaaa") = 404%Z
     ∧ body (not_found "aaaaaaaa")
       = Json.dumps [("error", "Short code 'aaaaaaaa' not found")]).
Proof.
  split.
  - apply (redirect_unknown_code (fetch " bbbbbbbb ") world1).
    + vm_compute. intros [=].
    + reflexivity.
    + left. vm_compute. reflexivity.
  - apply (redirect_unknown_code (fetch "aaaaaaaa") (ttl_sweep 1700000000 world1)).
    + vm_compute. intros [=].
    + reflexivity.
    + right. exists world1, 1700000000%Z,
        {| short_code := "aaaaaaaa"; long_url := "https://example.com/first";
           created_at := 1690000000; expires_at := 1697776000 |}.
      split; [reflexivity|]. split; [vm_compute; reflexivity | reflexivity].
Defined.

(** C10.  The create handler strips the whitespace around the submitted
    [long_url] before it validates and before it stores: the handler does
    on [raw] what it does on the stripped string; a field of whitespace
    alone is answered 400 "long_url is required", the world left as it
    was; and a 201 answer echoes the stripped string and has stored it. *)
Theorem create_strips_long_url (event : Event.t) (raw : str) (w : World) :
  submits event raw ->
  CreateShortUrl.lambda_handler event w
  = (if bool_decide (Py.strip raw = "") then
       (Ok (bad_request "long_url is required"), w)
     else if negb (Py.startswith (Py.strip raw) "http://"
                   || Py.startswith (Py.strip raw) "https://") then
       (Ok (bad_request "long_url must start with http:// or https://"), w)
     else CreateShortUrl.collision_loop 5 (Py.strip raw) w)
  ∧ (Forall (fun c => Py.isspace c = true) raw ->
     CreateShortUrl.lambda_handler event w
     = (Ok (bad_request "long_url is required"), w)
     ∧ statusCode (bad_request "long_url is required") = 400%Z)
  ∧ ∀ r w',
      CreateShortUrl.lambda_handler event w = (Ok r, w') ->
      statusCode r = 201%Z ->
      ∃ base it,
        r = created_response base (short_code it) (Py.strip raw)
        ∧ table w' !! short_code it = Some it
        ∧ long_url it = Py.strip raw.
Proof.
  intros Hs. split; [by apply create_submits|]. split.
  - intros Hall. rewrite (create_submits _ _ _ Hs).
    by rewrite bool_decide_eq_true_2 by by apply strip_all_space.
  - intros r w' Hrun H201.
    destruct (create_201_row _ _ _ _ _ Hs Hrun H201)
      as (base & it & _ & Hr & _ & Ht & Hu & _).
    by exists base, it.
Qed.

(** At ["  https://example.com/page "] the stored value differs from the
    submitted field. *)
Lemma create_strips_long_url_witness :
  (CreateShortUrl.lambda_handler (post "   ") world0
   = (Ok (bad_request "long_url is required"), world0)
   ∧ statusCode (bad_request "long_url is required") = 400%Z)
  ∧ (∃ base it,
       created_response "https://sho.rt/" "dkryFMT0" "https://example.com/page"
       = created_response base (short_code it) (Py.strip "  https://example.com/page ")
       ∧ table (CreateShortUrl.lambda_handler
                  (post "  https://example.com/page ") world0).2 !! short_code it
         = Some it
       ∧ long_url it = Py.strip "  https://example.com/page ")
  ∧ Py.strip "  https://example.com/page " = "https://example.com/page".
Proof.
  destruct (create_strips_long_url (post "   ") "   " world0) as (_ & Hblank & _).
  { exists [("long_url", Json.JString "   ")]. split; vm_compute; reflexivity. }
  destruct (create_strips_long_url (post "  https://example.com/page ")
              "  https://example.com/page " world0) as (_ & _ & Hstored).
  { exists [("long_url", Json.JString "  https://example.com/page ")].
    split; vm_compute; reflexivity. }
  split; [|split].
  - apply Hblank. by repeat constructor.
  - apply (Hstored
             (created_response "https://sho.rt/" "dkryFMT0" "https://example.com/page")
             (CreateShortUrl.lambda_handler (post "  https://example.com/page ") world0).2).
    + vm_compute. reflexivity.
    + reflexivity.
  - vm_compute. reflexivity.
Defined.

(** * Further properties *)

(** ** The redirect handler, case by case *)

Lemma redirect_blank (event : Event.t) (w : World) :
  Py.strip (path_short_code event) = "" ->
  RedirectUrl.lambda_handler event w
  = (Ok (RedirectUrl._response 400 [("error", "short_code is required")]), w).
Proof.
  intros He. unfold RedirectUrl.lambda_handler. cbv zeta.
  fold (path_short_code event). by rewrite bool_decide_eq_true_2.
Qed.

Lemma redirect_failed (event : Event.t) (w : World) (ce : ClientError) :
  Py.strip (path_short_code event) ≠ "" ->
  outages w 0%nat = Some ce ->
  RedirectUrl.lambda_handler event w
  = (Ok (RedirectUrl._response 500
           [("error", "Database error"); ("detail", str_ClientError ce)]),
     sent (GetItem (Py.strip (path_short_code event))) w).
Proof.
  intros Hne Ho. unfold RedirectUrl.lambda_handler. cbv zeta.
  fold (path_short_code event).
  rewrite bool_decide_eq_false_2 by done.
  unfold try_except, get_item. by rewrite Ho.
Qed.

(** X1.  A redirect request with no path parameters, with none called
    [short_code], or with a [short_code] of whitespace alone is answered
    400 "short_code is required", and the table is not read. *)
Theorem redirect_missing_code (event : Event.t) (w : World) :
  (Event.pathParameters event = None
   ∨ (∃ params, Event.pathParameters event = Some params
                ∧ params !! "short_code" = None)
   ∨ (∃ params code, Event.pathParameters event = Some params
                     ∧ params !! "short_code" = Some code
                     ∧ Forall (fun c => Py.isspace c = true) code)) ->
  RedirectUrl.lambda_handler event w
  = (Ok (RedirectUrl._response 400 [("error", "short_code is required")]), w)
  ∧ statusCode (RedirectUrl._response 400 [("error", "short_code is required")])
    = 400%Z.
Proof.
  intros Hcases. split; [|done]. apply redirect_blank. unfold path_short_code.
  destruct Hcases as [-> | [(params & -> & Hget) | (params & code & -> & Hget & Hws)]].
  - done.
  - cbn [default from_option id]. unfold str in *. by rewrite Hget.
  - cbn [default from_option id]. unfold str in *. rewrite Hget.
    by apply strip_all_space.
Qed.

Lemma redirect_missing_code_witness :
  RedirectUrl.lambda_handler (fetch "  ") world1
  = (Ok (RedirectUrl._response 400 [("error", "short_code is required")]), world1)
  ∧ statusCode (RedirectUrl._response 400 [("error", "short_code is required")])
    = 400%Z.
Proof.
  apply (redirect_missing_code (fetch "  ") world1).
  right. right. exists {[ ("short_code" : str) := ("  " : str) ]}, "  ".
  split; [reflexivity|]. split; [vm_compute; reflexivity | by repeat constructor].
Defined.

(** X2.  When the table answers the read of a redirect request with an
    error, the handler answers 500 with [error] and the text of the error
    as [detail]; it does not read again. *)
Theorem redirect_store_error (event : Event.t) (w : World) (ce : ClientError) :
  Py.strip (path_short_code event) ≠ "" ->
  outages w 0%nat = Some ce ->
  RedirectUrl.lambda_handler event w
  = (Ok (RedirectUrl._response 500
           [("error", "Database error"); ("detail", str_ClientError ce)]),
     sent (GetItem (Py.strip (path_short_code event))) w)
  ∧ requests (RedirectUrl.lambda_handler event w).2
    = GetItem (Py.strip (path_short_code event)) :: requests w
  ∧ body (RedirectUrl._response 500
            [("error", "Database error"); ("detail", str_ClientError ce)])
    = Json.dumps
        [("error", "Database error");
         ("detail", "An error occurred (" ++ Code ce ++ ") when calling the "
                      ++ operation_name ce ++ " operation: " ++ Message ce)].
Proof.
  intros Hne Ho. rewrite (redirect_failed _ _ _ Hne Ho). done.
Qed.

Lemma redirect_store_error_witness :
  RedirectUrl.lambda_handler (fetch "aaaaaaaa") (answering [Some throttled] world1)
  = (Ok (RedirectUrl._response 500
           [("error", "Database error"); ("detail", str_ClientError throttled)]),
     sent (GetItem (Py.strip (path_short_code (fetch "aaaaaaaa"))))
       (answering [Some throttled] world1))
  ∧ requests (RedirectUrl.lambda_handler (fetch "aaaaaaaa")
                (answering [Some throttled] world1)).2
    = GetItem (Py.strip (path_short_code (fetch "aaaaaaaa")))
        :: requests (answering [Some throttled] world1)
  ∧ body (RedirectUrl._response 500
            [("error", "Database error"); ("detail", str_ClientError throttled)])
    = Json.dumps
        [("error", "Database error");
         ("detail", "An error occurred (" ++ Code throttled ++ ") when calling the "
                      ++ operation_name throttled ++ " operation: "
                      ++ Message throttled)].
Proof.
  apply (redirect_store_error (fetch "aaaaaaaa") (answering [Some throttled] world1)).
  - vm_compute. intros [=].
  - reflexivity.
Defined.

(** X3.  The redirect handler does not look at [expires_at]: a row that is
    in the table is redirected to even when it has expired, and only once
    the time-to-live sweep has deleted it is the same request answered
    404. *)
Theorem redirect_ignores_expiry (event : Event.t) (w : World) (it : Item) (now : Z) :
  Py.strip (path_short_code event) ≠ "" ->
  outages w 0%nat = None ->
  table w !! Py.strip (path_short_code event) = Some it ->
  (expires_at it < now)%Z ->
  RedirectUrl.lambda_handler event w
  = (Ok (moved_permanently (long_url it)),
     sent (GetItem (Py.strip (path_short_code event))) w)
  ∧ (RedirectUrl.lambda_handler event (ttl_sweep now w)).1
    = Ok (not_found (Py.strip (path_short_code event))).
Proof.
  intros Hne Ho Ht Hexp. split; [by apply redirect_found|].
  rewrite redirect_not_found; [done..|]. by eapply ttl_sweep_expired.
Qed.

Lemma redirect_ignores_expiry_witness :
  RedirectUrl.lambda_handler (fetch "aaaaaaaa") world1
  = (Ok (moved_permanently "https://example.com/first"),
     sent (GetItem (Py.strip (path_short_code (fetch "aaaaaaaa")))) world1)
  ∧ (RedirectUrl.lambda_handler (fetch "aaaaaaaa") (ttl_sweep 1700000000 world1)).1
    = Ok (not_found (Py.strip (path_short_code (fetch "aaaaaaaa")))).
Proof.
  apply (redirect_ignores_expiry (fetch "aaaaaaaa") world1
           {| short_code := "aaaaaaaa"; long_url := "https://example.com/first";
              created_at := 1690000000; expires_at := 1697776000 |}
           1700000000).
  - vm_compute. intros [=].
  - reflexivity.
  - vm_compute. reflexivity.
  - reflexivity.
Defined.

(** X4.  Every answer the redirect handler returns has status 301, 400,
    404 or 500 and carries the header [Access-Control-Allow-Origin: *];
    and by then the handler has written nothing: the table is as it was,
    and it has sent nothing to the table or one read of the stripped
    code. *)
Theorem redirect_answers (event : Event.t) (w : World) (r : Response) (w' : World) :
  RedirectUrl.lambda_handler event w = (Ok r, w') ->
  (statusCode r = 301 ∨ statusCode r = 400 ∨ statusCode r = 404
   ∨ statusCode r = 500)%Z
  ∧ ("Access-Control-Allow-Origin", "*") ∈ headers r
  ∧ table w' = table w
  ∧ (requests w' = requests w
     ∨ requests w' = GetItem (Py.strip (path_short_code event)) :: requests w).
Proof.
  destruct (decide (Py.strip (path_short_code event) = "")) as [He|Hne].
  { rewrite (redirect_blank _ _ He). intros [= <- <-].
    split; [auto|]. split; [cbn; set_solver|]. split; [done|]. by left. }
  destruct (outages w 0%nat) as [ce|] eqn:Ho.
  { rewrite (redirect_failed _ _ _ Hne Ho). intros [= <- <-].
    split; [cbn; auto|]. split; [cbn; set_solver|]. split; [done|]. by right. }
  destruct (table w !! Py.strip (path_short_code event)) as [it|] eqn:Ht.
  - rewrite (redirect_found _ _ _ Hne Ho Ht). intros [= <- <-].
    split; [cbn; auto|]. split; [cbn; set_solver|]. split; [done|]. by right.
  - rewrite (redirect_not_found _ _ Hne Ho Ht). intros [= <- <-].
    split; [cbn; auto|]. split; [cbn; set_solver|]. split; [done|]. by right.
Qed.

Lemma redirect_answers_witness :
  (statusCode (moved_permanently "https://example.com/first") = 301
   ∨ statusCode (moved_permanently "https://example.com/first") = 400
   ∨ statusCode (moved_permanently "https://example.com/first") = 404
   ∨ statusCode (moved_permanently "https://example.com/first") = 500)%Z
  ∧ ("Access-Control-Allow-Origin", "*")
      ∈ headers (moved_permanently "https://example.com/first")
  ∧ table (sent (GetItem "aaaaaaaa") world1) = table world1
  ∧ (requests (sent (GetItem "aaaaaaaa") world1) = requests world1
     ∨ requests (sent (GetItem "aaaaaaaa") world1)
       = GetItem (Py.strip (path_short_code (fetch " aaaaaaaa "))) :: requests world1).
Proof.
  apply (redirect_answers (fetch " aaaaaaaa ") world1
           (moved_permanently "https://example.com/first")
           (sent (GetItem "aaaaaaaa") world1)).
  vm_compute. reflexivity.
Defined.

(** ** The create handler, case by case *)

(** What the create handler does before the loop: it answers one of three
    400s or raises [AttributeError], the world untouched, or it enters the
    loop with a valid stripped long URL. *)
Lemma create_cases (event : Event.t) (w : World) :
  (∃ message,
     CreateShortUrl.lambda_handler event w = (Ok (bad_request message), w))
  ∨ CreateShortUrl.lambda_handler event w = (Raise AttributeError, w)
  ∨ ∃ raw,
      submits event raw ∧ valid_long_url (Py.strip raw)
      ∧ CreateShortUrl.lambda_handler event w
        = CreateShortUrl.collision_loop 5 (Py.strip raw) w.
Proof.
  destruct (Json.loads (str_or (Event.body event) "{}")) as [v|] eqn:Hl.
  2:{ left. eexists. by apply create_malformed. }
  destruct v as [| | | |?|members];
    try (right; left; unfold CreateShortUrl.lambda_handler, CreateShortUrl.json_loads;
         run; by rewrite Hl).
  destruct (Json.members_get "long_url" members) as [v|] eqn:Hm.
  2:{ left. eexists. by apply (create_missing _ _ _ Hl Hm). }
  destruct v as [| | |raw| |];
    try (right; left; unfold CreateShortUrl.lambda_handler, CreateShortUrl.json_loads;
         run; rewrite Hl; cbn; run; by rewrite Hm).
  assert (Hs : submits event raw) by by exists members.
  rewrite (create_submits event raw w Hs).
  case_bool_decide as He; [left; by eexists|].
  destruct (negb _) eqn:Hp; [left; by eexists|].
  right; right. exists raw. apply negb_false_iff in Hp. done.
Qed.

Lemma retries_environ (k : nat) (u : str) (w w1 : World) :
  retries k u w = Some w1 -> environ w1 = environ w.
Proof. intros Hk. by destruct (retries_frame _ _ _ _ Hk) as (_ & He & _). Qed.

(** The loop, forwards: collisions, then a stored row. *)
Lemma collision_loop_stored (n k : nat) (u : str) (w w1 : World) (it : Item) (w' : World) :
  (k < n)%nat ->
  retries k u w = Some w1 ->
  attempt u w1 = (Ok it, w') ->
  CreateShortUrl.collision_loop n u w
  = match environ w !! "BASE_URL" with
    | Some b => (Ok (created_response b (short_code it) u), w')
    | None => (Raise (KeyError "BASE_URL"), w')
    end.
Proof.
  intros Hlt Hk Ha.
  replace n with (k + S (n - S k))%nat by lia.
  rewrite (collision_loop_retries _ _ _ _ _ Hk), collision_loop_S, Ha.
  destruct (attempt_stored _ _ _ _ Ha) as (c & _ & _ & _ & _ & _ & _ & He & _).
  rewrite He, (retries_environ _ _ _ _ Hk). by destruct (environ w !! _).
Qed.

(** X5.  Every answer the create handler returns, whatever the request
    and the world, has status 201, 400 or 500 and carries exactly the
    headers [Content-Type: application/json] and
    [Access-Control-Allow-Origin: *]. *)
Theorem create_answers (event : Event.t) (w : World) (r : Response) (w' : World) :
  CreateShortUrl.lambda_handler event w = (Ok r, w') ->
  (statusCode r = 201 ∨ statusCode r = 400 ∨ statusCode r = 500)%Z
  ∧ headers r = [("Content-Type", "application/json");
                 ("Access-Control-Allow-Origin", "*")].
Proof.
  destruct (create_cases event w) as [[m ->] | [-> | (raw & _ & _ & ->)]].
  - intros [= <- <-]. auto.
  - done.
  - pose proof (collision_loop_run 5 (Py.strip raw) w) as Hrun.
    destruct (CreateShortUrl.collision_loop 5 (Py.strip raw) w) as [res w2].
    cbn [fst snd] in Hrun.
    inversion Hrun as [w3 Hk Hr | k w1 ce w3 Hlt Hk Ha Hc Hr | k w1 it w3 Hlt Hk Ha Hr];
      subst.
    + intros [= <- <-]. auto.
    + intros [= <- <-]. auto.
    + destruct (environ w2 !! "BASE_URL") as [b|]; [|done].
      intros [= <- <-]. auto.
Qed.

Lemma create_answers_witness :
  (statusCode (database_error throttled) = 201
   ∨ statusCode (database_error throttled) = 400
   ∨ statusCode (database_error throttled) = 500)%Z
  ∧ headers (database_error throttled)
    = [("Content-Type", "application/json"); ("Access-Control-Allow-Origin", "*")].
Proof.
  apply (create_answers (post "https://example.com/page")
           (answering [Some conditional_check_failed; Some throttled] world0)
           (database_error throttled)
           (CreateShortUrl.lambda_handler (post "https://example.com/page")
              (answering [Some conditional_check_failed; Some throttled] world0)).2).
  vm_compute. reflexivity.
Defined.

(** X6.  The converse of C1: for a valid create request, when fewer than
    5 attempts are answered with a conditional-check failure and the next
    put succeeds, with [BASE_URL] set, the handler answers 201 in the
    world that put leaves; the body announces the code of the stored row,
    the stripped long URL, and the short URL made of [BASE_URL] without
    its trailing slashes, a slash and the code. *)
Theorem create_succeeds
    (event : Event.t) (raw : str) (w : World)
    (k : nat) (w1 : World) (it : Item) (w' : World) (base : str) :
  submits event raw -> valid_long_url (Py.strip raw) ->
  (k < 5)%nat ->
  retries k (Py.strip raw) w = Some w1 ->
  attempt (Py.strip raw) w1 = (Ok it, w') ->
  environ w !! "BASE_URL" = Some base ->
  CreateShortUrl.lambda_handler event w
  = (Ok (created_response base (short_code it) (Py.strip raw)), w')
  ∧ body (created_response base (short_code it) (Py.strip raw))
    = Json.dumps [("short_url", Py.rstrip "/" base ++ "/" ++ short_code it);
                  ("short_code", short_code it);
                  ("long_url", Py.strip raw);
                  ("expires_in", "90 days")]
  ∧ table w' !! short_code it = Some it
  ∧ long_url it = Py.strip raw.
Proof.
  intros Hs Hv Hlt Hk Ha Hb.
  rewrite (create_valid _ _ _ Hs Hv), (collision_loop_stored _ _ _ _ _ _ _ Hlt Hk Ha), Hb.
  destruct (attempt_stored _ _ _ _ Ha) as (c & Hit & _ & _ & _ & _ & Hins & _).
  assert (Hc : short_code it = c) by by rewrite Hit.
  do 2 (split; [done|]). split; [by rewrite Hins, Hc, lookup_insert_eq|].
  by rewrite Hit.
Qed.

Lemma create_succeeds_witness :
  CreateShortUrl.lambda_handler (post "https://example.com/second") world1
  = (Ok (created_response "https://sho.rt/" "bbbbbbbb" "https://example.com/second"),
     (CreateShortUrl.lambda_handler (post "https://example.com/second") world1).2)
  ∧ body (created_response "https://sho.rt/" "bbbbbbbb" "https://example.com/second")
    = Json.dumps [("short_url", Py.rstrip "/" "https://sho.rt/" ++ "/" ++ "bbbbbbbb");
                  ("short_code", "bbbbbbbb");
                  ("long_url", "https://example.com/second");
                  ("expires_in", "90 days")]
  ∧ table (CreateShortUrl.lambda_handler (post "https://example.com/second") world1).2
      !! ("bbbbbbbb" : str)
    = Some {| short_code := "bbbbbbbb"; long_url := "https://example.com/second";
              created_at := 1700000001; expires_at := 1707776001 |}
  ∧ ("https://example.com/second" : str) = "https://example.com/second".
Proof.
  apply (create_succeeds (post "https://example.com/second")
           "https://example.com/second" world1 1
           (attempt "https://example.com/second" world1).2
           {| short_code := "bbbbbbbb"; long_url := "https://example.com/second";
              created_at := 1700000001; expires_at := 1707776001 |}
           (CreateShortUrl.lambda_handler (post "https://example.com/second") world1).2
           "https://sho.rt/").
  - exists [("long_url", Json.JString "https://example.com/second")].
    split; vm_compute; reflexivity.
  - split; [done | vm_compute; reflexivity].
  - lia.
  - vm_compute. reflexivity.
  - vm_compute. reflexivity.
  - vm_compute. reflexivity.
Defined.

(** X7.  When [BASE_URL] is not set, a valid create request whose put
    succeeds is not answered: the handler raises [KeyError] after the
    write, so the row, absent before, is in the table and no response
    announces it. *)
Theorem create_without_base_url
    (event : Event.t) (raw : str) (w : World)
    (k : nat) (w1 : World) (it : Item) (w' : World) :
  submits event raw -> valid_long_url (Py.strip raw) ->
  (k < 5)%nat ->
  retries k (Py.strip raw) w = Some w1 ->
  attempt (Py.strip raw) w1 = (Ok it, w') ->
  environ w !! "BASE_URL" = None ->
  CreateShortUrl.lambda_handler event w = (Raise (KeyError "BASE_URL"), w')
  ∧ table w !! short_code it = None
  ∧ table w' !! short_code it = Some it.
Proof.
  intros Hs Hv Hlt Hk Ha Hb.
  rewrite (create_valid _ _ _ Hs Hv), (collision_loop_stored _ _ _ _ _ _ _ Hlt Hk Ha), Hb.
  destruct (retries_frame _ _ _ _ Hk) as (Ht & _).
  destruct (attempt_stored _ _ _ _ Ha) as (c & Hit & _ & _ & _ & Hnone & Hins & _).
  assert (Hc : short_code it = c) by by rewrite Hit.
  split; [done|]. rewrite Hc. split; [by rewrite <- Ht|].
  by rewrite Hins, lookup_insert_eq.
Qed.

Lemma create_without_base_url_witness :
  CreateShortUrl.lambda_handler (post "https://example.com/page") (unconfigured world0)
  = (Raise (KeyError "BASE_URL"),
     (attempt "https://example.com/page" (unconfigured world0)).2)
  ∧ table (unconfigured world0) !! ("dkryFMT0" : str) = None
  ∧ table (attempt "https://example.com/page" (unconfigured world0)).2
      !! ("dkryFMT0" : str)
    = Some {| short_code := "dkryFMT0"; long_url := "https://example.com/page";
              created_at := 1699999999; expires_at := 1707776000 |}.
Proof.
  apply (create_without_base_url (post "https://example.com/page")
           "https://example.com/page" (unconfigured world0) 0 (unconfigured world0)
           {| short_code := "dkryFMT0"; long_url := "https://example.com/page";
              created_at := 1699999999; expires_at := 1707776000 |}).
  - exists [("long_url", Json.JString "https://example.com/page")].
    split; vm_compute; reflexivity.
  - split; [done | vm_compute; reflexivity].
  - lia.
  - reflexivity.
  - vm_compute. reflexivity.
  - reflexivity.
Defined.

(** ** More on [strip] *)

Section StripMore.
Variable p : N -> bool.

Lemma lstrip_while_split (s : str) :
  ∃ l, s = l ++ Py.lstrip_while p s ∧ Forall (fun c => p c = true) l.
Proof.
  induction s as [|c r (l & Hl & Hall)]; [by exists []|].
  simpl. destruct (p c) eqn:Hc.
  - exists (c :: l). split; [by rewrite <- app_comm_cons, <- Hl | by constructor].
  - by exists [].
Qed.

Lemma lstrip_while_head (s : str) (c : N) (r : str) :
  Py.lstrip_while p s = c :: r -> p c = false.
Proof.
  induction s as [|a s IH]; simpl; [done|].
  destruct (p a) eqn:Ha; [done|]. by intros [= <- _].
Qed.

Lemma lstrip_while_idemp (s : str) :
  Py.lstrip_while p (Py.lstrip_while p s) = Py.lstrip_while p s.
Proof.
  destruct (Py.lstrip_while p s) as [|c r] eqn:Hs; [done|].
  simpl. by rewrite (lstrip_while_head _ _ _ Hs).
Qed.

Lemma lstrip_while_snoc (s : str) (c : N) :
  p c = false -> Py.lstrip_while p (s ++ [c]) = Py.lstrip_while p s ++ [c].
Proof.
  intros Hc. induction s as [|a s IH]; simpl; [by rewrite Hc|].
  by destruct (p a).
Qed.

Lemma rstrip_while_cons (c : N) (s : str) :
  p c = false -> Py.rstrip_while p (c :: s) = c :: Py.rstrip_while p s.
Proof.
  intros Hc. unfold Py.rstrip_while. simpl.
  by rewrite lstrip_while_snoc, rev_unit.
Qed.

Lemma rstrip_while_idemp (s : str) :
  Py.rstrip_while p (Py.rstrip_while p s) = Py.rstrip_while p s.
Proof.
  unfold Py.rstrip_while. by rewrite rev_involutive, lstrip_while_idemp.
Qed.

Lemma rstrip_while_split (s : str) :
  ∃ r, s = Py.rstrip_while p s ++ r ∧ Forall (fun c => p c = true) r.
Proof.
  destruct (lstrip_while_split (rev s)) as (l & Hl & Hall).
  exists (rev l). split; [|by apply Forall_rev].
  unfold Py.rstrip_while. rewrite <- rev_app_distr, <- Hl. by rewrite rev_involutive.
Qed.

Lemma rstrip_while_last (s : str) (c : N) :
  last (Py.rstrip_while p s) = Some c -> p c = false.
Proof.
  unfold Py.rstrip_while. intros Hlast.
  destruct (Py.lstrip_while p (rev s)) as [|a r] eqn:Hs; [done|].
  simpl in Hlast. rewrite last_snoc in Hlast. injection Hlast as <-.
  by eapply lstrip_while_head.
Qed.

End StripMore.

Lemma strip_idemp (s : str) : Py.strip (Py.strip s) = Py.strip s.
Proof.
  unfold Py.strip.
  destruct (Py.lstrip_while Py.isspace s) as [|c r] eqn:Hs; [done|].
  pose proof (lstrip_while_head _ _ _ _ Hs) as Hc.
  rewrite (rstrip_while_cons _ _ _ Hc). simpl. rewrite Hc.
  by rewrite (rstrip_while_cons _ _ _ Hc), rstrip_while_idemp.
Qed.

Lemma strip_split (s : str) :
  ∃ l r, s = l ++ Py.strip s ++ r
         ∧ Forall (fun c => Py.isspace c = true) l
         ∧ Forall (fun c => Py.isspace c = true) r.
Proof.
  destruct (lstrip_while_split Py.isspace s) as (l & Hl & Hall).
  destruct (rstrip_while_split Py.isspace (Py.lstrip_while Py.isspace s))
    as (r & Hr & Harr).
  exists l, r. unfold Py.strip. by rewrite <- Hr.
Qed.

Lemma strip_ends (s : str) :
  (∀ c, head (Py.strip s) = Some c -> Py.isspace c = false)
  ∧ (∀ c, last (Py.strip s) = Some c -> Py.isspace c = false).
Proof.
  split; [|apply rstrip_while_last].
  unfold Py.strip. intros c Hhead.
  destruct (Py.lstrip_while Py.isspace s) as [|a r] eqn:Hs; [done|].
  pose proof (lstrip_while_head _ _ _ _ Hs) as Ha.
  rewrite (rstrip_while_cons _ _ _ Ha) in Hhead. by injection Hhead as <-.
Qed.

(** ** What the handlers do to the table *)

(** The loop leaves the table as it was unless it stores a row. *)
Lemma loop_run_table (n : nat) (u : str) (w : World) (res : result Response) (w' : World) :
  loop_run n u w res w' ->
  table w' = table w
  ∨ ∃ it, table w !! short_code it = None
          ∧ table w' = <[short_code it := it]> (table w)
          ∧ long_url it = u
          ∧ length (short_code it) = 8%nat
          ∧ Forall (fun c => alnum c = true) (short_code it)
          ∧ (res = Raise (KeyError "BASE_URL")
             ∨ ∃ b, res = Ok (created_response b (short_code it) u)).
Proof.
  intros [w5 Hk | k w1 ce w2 Hlt Hk Ha Hc | k w1 it w2 Hlt Hk Ha].
  - left. by destruct (retries_frame _ _ _ _ Hk) as (Ht & _).
  - left. destruct (retries_frame _ _ _ _ Hk) as (Ht & _).
    destruct (attempt_refused _ _ _ _ Ha) as (? & ? & _ & _ & Ht' & _). congruence.
  - right. exists it. destruct (retries_frame _ _ _ _ Hk) as (Ht & _).
    destruct (attempt_stored _ _ _ _ Ha) as (c & Hit & Hlen & Hall & _ & Hnone & Hins & _).
    assert (Hc : short_code it = c) by by rewrite Hit.
    rewrite Hc, <- Ht. do 2 (split; [done|]). split; [by rewrite Hit|].
    split; [done|]. split.
    + eapply Forall_impl; [exact Hall|]. intros ch Hin.
      pose proof ALPHABET_alnum as Hal. rewrite Forall_forall in Hal. by apply Hal.
    + destruct (environ w2 !! _); eauto.
Qed.

Lemma create_table (event : Event.t) (w : World) :
  table (CreateShortUrl.lambda_handler event w).2 = table w
  ∨ ∃ raw it,
      submits event raw ∧ valid_long_url (Py.strip raw)
      ∧ table w !! short_code it = None
      ∧ table (CreateShortUrl.lambda_handler event w).2
        = <[short_code it := it]> (table w)
      ∧ long_url it = Py.strip raw
      ∧ length (short_code it) = 8%nat
      ∧ Forall (fun c => alnum c = true) (short_code it)
      ∧ ((CreateShortUrl.lambda_handler event w).1 = Raise (KeyError "BASE_URL")
         ∨ ∃ b, (CreateShortUrl.lambda_handler event w).1
                = Ok (created_response b (short_code it) (Py.strip raw))).
Proof.
  destruct (create_cases event w) as [[m ->] | [-> | (raw & Hs & Hv & ->)]];
    [by left..|].
  destruct (loop_run_table _ _ _ _ _ (collision_loop_run 5 (Py.strip raw) w))
    as [Ht | (it & H)]; [by left|].
  right. exists raw, it. tauto.
Qed.

(** X8.  A create request that is answered with anything but 201 leaves
    the table exactly as it was; one answered with 201 adds exactly one
    row. *)
Theorem create_table_size (event : Event.t) (w : World) (r : Response) (w' : World) :
  CreateShortUrl.lambda_handler event w = (Ok r, w') ->
  (statusCode r ≠ 201%Z -> table w' = table w)
  ∧ (statusCode r = 201%Z -> size (table w') = S (size (table w))).
Proof.
  intros Hrun. destruct (create_table event w) as [Ht | (raw & it & _ & _ & Hnone & Hins & _ & _ & _ & Hres)];
    rewrite Hrun in *; cbn [fst snd] in *.
  - split; [done|]. intros H201.
    destruct (create_201_run _ _ _ _ Hrun H201)
      as (? & k & w1 & it & ? & _ & _ & _ & Hk & Ha & _).
    destruct (retries_frame _ _ _ _ Hk) as (Htk & _).
    destruct (attempt_stored _ _ _ _ Ha) as (c & _ & _ & _ & _ & Hnone & Hins & _).
    rewrite Htk in *. rewrite Hins. by apply map_size_insert_None.
  - split.
    + destruct Hres as [[=] | [b [= ->]]]. done.
    + intros _. rewrite Hins. by apply map_size_insert_None.
Qed.

Lemma create_table_size_witness :
  (statusCode (created_response "https://sho.rt/" "bbbbbbbb" "https://example.com/second")
   ≠ 201%Z ->
   table (CreateShortUrl.lambda_handler (post "https://example.com/second") world1).2
   = table world1)
  ∧ (statusCode (created_response "https://sho.rt/" "bbbbbbbb" "https://example.com/second")
     = 201%Z ->
     size (table (CreateShortUrl.lambda_handler (post "https://example.com/second") world1).2)
     = S (size (table world1))).
Proof.
  apply (create_table_size (post "https://example.com/second") world1).
  vm_compute. reflexivity.
Defined.

(** X9.  A 500 answer of the create handler means one of two things: five
    attempts in a row were answered with a conditional-check failure, or
    fewer than five were and the next one was answered with another store
    error, whose text the answer carries. *)
Theorem create_500_inv (event : Event.t) (w : World) (r : Response) (w' : World) :
  CreateShortUrl.lambda_handler event w = (Ok r, w') ->
  statusCode r = 500%Z ->
  ∃ raw,
    submits event raw ∧ valid_long_url (Py.strip raw)
    ∧ (r = exhausted ∧ retries 5 (Py.strip raw) w = Some w'
       ∨ ∃ k w1 ce,
           (k < 5)%nat ∧ retries k (Py.strip raw) w = Some w1
           ∧ attempt (Py.strip raw) w1 = (Raise (ClientError_ ce), w')
           ∧ Code ce ≠ ConditionalCheckFailedException
           ∧ r = database_error ce).
Proof.
  intros Hrun H500.
  destruct (create_cases event w) as [[m Hm] | [Hr | (raw & Hs & Hv & Hloop)]].
  - rewrite Hm in Hrun. by injection Hrun as <- <-.
  - by rewrite Hr in Hrun.
  - exists raw. do 2 (split; [done|]). rewrite Hloop in Hrun.
    pose proof (collision_loop_run 5 (Py.strip raw) w) as Hcases.
    rewrite Hrun in Hcases. cbn [fst snd] in Hcases.
    inversion Hcases as [w2 Hk Hr | k w1 ce w2 Hlt Hk Ha Hc Hr | k w1 it w2 Hlt Hk Ha Hr];
      subst.
    + by left.
    + right. by exists k, w1, ce.
    + destruct (environ w' !! "BASE_URL"); [|done]. by injection Hr as <-.
Qed.

Lemma create_500_inv_witness :
  ∃ raw,
    submits (post "https://example.com/page") raw ∧ valid_long_url (Py.strip raw)
    ∧ (database_error throttled = exhausted
       ∧ retries 5 (Py.strip raw)
           (answering [Some conditional_check_failed; Some throttled] world0)
         = Some (CreateShortUrl.lambda_handler (post "https://example.com/page")
                   (answering [Some conditional_check_failed; Some throttled] world0)).2
       ∨ ∃ k w1 ce,
           (k < 5)%nat
           ∧ retries k (Py.strip raw)
               (answering [Some conditional_check_failed; Some throttled] world0)
             = Some w1
           ∧ attempt (Py.strip raw) w1
             = (Raise (ClientError_ ce),
                (CreateShortUrl.lambda_handler (post "https://example.com/page")
                   (answering [Some conditional_check_failed; Some throttled] world0)).2)
           ∧ Code ce ≠ ConditionalCheckFailedException
           ∧ database_error throttled = database_error ce).
Proof.
  apply (create_500_inv (post "https://example.com/page")
           (answering [Some conditional_check_failed; Some throttled] world0)).
  - vm_compute. reflexivity.
  - reflexivity.
Defined.

(** The create handler keeps the table well formed. *)
Lemma create_well_formed (event : Event.t) (w : World) :
  well_formed_table (table w) ->
  well_formed_table (table (CreateShortUrl.lambda_handler event w).2).
Proof.
  intros Hwf.
  destruct (create_table event w)
    as [-> | (raw & it & _ & Hv & _ & -> & Hu & Hlen & Hal & _)]; [done|].
  intros k it' Hlook.
  destruct (decide (short_code it = k)) as [<-|Hne].
  - rewrite lookup_insert_eq in Hlook. injection Hlook as <-.
    split; [done|]. unfold well_formed_row. rewrite Hu.
    do 3 (split; [done|]). apply strip_idemp.
  - rewrite lookup_insert_ne in Hlook by done. by apply Hwf.
Qed.

(** Either request leaves every row of the table in place. *)
Lemma call_keeps_rows (c : Call) (w : World) (k : str) (it : Item) :
  table w !! k = Some it -> table (call c w) !! k = Some it.
Proof.
  intros Hk. destruct c as [event|event]; cbn [call].
  - by apply create_frame.
  - by rewrite redirect_read_only.
Qed.

Lemma calls_keep_rows (cs : list Call) (w : World) (k : str) (it : Item) :
  table w !! k = Some it -> table (calls cs w) !! k = Some it.
Proof.
  revert w. induction cs as [|c cs IH]; intros w Hk; [done|].
  cbn. apply IH. by apply call_keeps_rows.
Qed.

(** X10.  A row, once in the table, outlives every sequence of create and
    redirect requests, and keeps redirecting: after any such sequence, a
    redirect request for its code that the table serves is answered with
    301 to the same long URL. *)
Theorem link_is_permanent
    (cs : list Call) (w : World) (event : Event.t) (it : Item) :
  Py.strip (path_short_code event) ≠ "" ->
  table w !! Py.strip (path_short_code event) = Some it ->
  outages (calls cs w) 0%nat = None ->
  table (calls cs w) !! Py.strip (path_short_code event) = Some it
  ∧ (RedirectUrl.lambda_handler event (calls cs w)).1
    = Ok (moved_permanently (long_url it)).
Proof.
  intros Hne Ht Ho.
  pose proof (calls_keep_rows cs _ _ _ Ht) as Ht'.
  split; [done|]. by rewrite (redirect_found _ _ _ Hne Ho Ht').
Qed.

Lemma link_is_permanent_witness :
  table (calls [Shorten (post "https://example.com/second"); Follow (fetch "zzzzzzzz");
                Shorten (post_body "not json"); Shorten (post "https://example.com/third")]
           world1) !! Py.strip (path_short_code (fetch " aaaaaaaa"))
  = Some {| short_code := "aaaaaaaa"; long_url := "https://example.com/first";
            created_at := 1690000000; expires_at := 1697776000 |}
  ∧ (RedirectUrl.lambda_handler (fetch " aaaaaaaa")
       (calls [Shorten (post "https://example.com/second"); Follow (fetch "zzzzzzzz");
               Shorten (post_body "not json"); Shorten (post "https://example.com/third")]
          world1)).1
    = Ok (moved_permanently "https://example.com/first").
Proof.
  apply (link_is_permanent
           [Shorten (post "https://example.com/second"); Follow (fetch "zzzzzzzz");
            Shorten (post_body "not json"); Shorten (post "https://example.com/third")]
           world1 (fetch " aaaaaaaa")
           {| short_code := "aaaaaaaa"; long_url := "https://example.com/first";
              created_at := 1690000000; expires_at := 1697776000 |}).
  - vm_compute. intros [=].
  - vm_compute. reflexivity.
  - vm_compute. reflexivity.
Defined.

(** X11.  Every sequence of create and redirect requests keeps the table
    well formed: when every row is filed under its own code, has a code
    of 8 characters of [[A-Za-z0-9]] and a valid long URL with no
    whitespace around it, the same holds afterwards, whatever the
    answers were. *)
Theorem calls_keep_well_formed (cs : list Call) (w : World) :
  well_formed_table (table w) -> well_formed_table (table (calls cs w)).
Proof.
  revert w. induction cs as [|c cs IH]; intros w Hwf; [done|].
  cbn. apply IH. destruct c as [event|event]; cbn [call].
  - by apply create_well_formed.
  - by rewrite redirect_read_only.
Qed.

Lemma calls_keep_well_formed_witness :
  well_formed_table
    (table (calls [Shorten (post " https://example.com/page "); Follow (fetch "dkryFMT0");
                   Shorten (post "ftp://x.com"); Shorten (post "http://example.org")]
              world0)).
Proof.
  apply (calls_keep_well_formed
           [Shorten (post " https://example.com/page "); Follow (fetch "dkryFMT0");
            Shorten (post "ftp://x.com"); Shorten (post "http://example.org")]
           world0).
  intros k it Hlook. change (table world0) with (∅ : gmap str Item) in Hlook.
  by rewrite lookup_empty in Hlook.
Defined.

(** ** The code generator *)

Lemma replicateM_secrets_choice_value (n : nat) (seq0 : str) (w : World) :
  seq0 ≠ [] ->
  (replicateM n (secrets_choice seq0) w).1
  = Ok ((fun i => default 0%N (seq0 !! (entropy w i mod length seq0)%nat)) <$> seq 0 n).
Proof.
  intros Hseq. revert w. induction n as [|n IH]; intros w; [done|].
  assert (Hlt : (entropy w 0 mod length seq0 < length seq0)%nat).
  { apply Nat.mod_upper_bound. by destruct seq0. }
  destruct (lookup_lt_is_Some_2 _ _ Hlt) as [c Hc].
  specialize (IH (set_entropy (sdrop 1) w)).
  cbn [replicateM]. run. unfold secrets_choice at 1. unfold str in *. rewrite Hc.
  destruct (replicateM n (secrets_choice seq0) (set_entropy (sdrop 1) w)) as [res w'].
  cbn [fst] in IH. rewrite IH. cbn [fst].
  cbn [seq fmap list_fmap]. rewrite Hc. cbn [default from_option id].
  f_equal. f_equal. rewrite <- fmap_S_seq, <- list_fmap_compose. done.
Qed.

Lemma generate_short_code_candidate (w : World) :
  (CreateShortUrl.generate_short_code w).1 = Ok (candidate w).
Proof. by apply replicateM_secrets_choice_value. Qed.

Lemma candidate_lookup (w : World) (i : nat) :
  (i < 8)%nat ->
  candidate w !! i = CreateShortUrl.ALPHABET !! (entropy w i mod 62)%nat.
Proof.
  intros Hi. unfold candidate, CreateShortUrl.CODE_LENGTH, str.
  rewrite list_lookup_fmap, lookup_seq_lt by done.
  cbn [fmap option_fmap option_map Nat.add].
  assert (Hlt : (entropy w i mod 62 < length CreateShortUrl.ALPHABET)%nat).
  { rewrite ALPHABET_length. by apply Nat.mod_upper_bound. }
  destruct (lookup_lt_is_Some_2 _ _ Hlt) as [c Hc]. unfold str in *. by rewrite Hc.
Qed.

(** X12.  When each of the first 8 readings of the random source is
    below 62 (so that each is taken as it is), [generate_short_code]
    returns the 8 characters of the alphabet at the indices read; and two
    such sources give the same code exactly when their first 8 readings
    are the same: different readings, different codes. *)
Theorem generate_short_code_draws (w1 w2 : World) :
  (∀ i, (i < 8)%nat -> (entropy w1 i < 62)%nat) ->
  (∀ i, (i < 8)%nat -> (entropy w2 i < 62)%nat) ->
  (CreateShortUrl.generate_short_code w1).1 = Ok (candidate w1)
  ∧ (∀ i, (i < 8)%nat ->
          candidate w1 !! i = CreateShortUrl.ALPHABET !! entropy w1 i)
  ∧ (candidate w1 = candidate w2
     <-> ∀ i, (i < 8)%nat -> entropy w1 i = entropy w2 i).
Proof.
  intros Hb1 Hb2.
  assert (Hlook : ∀ w, (∀ i, (i < 8)%nat -> (entropy w i < 62)%nat) ->
                       ∀ i, (i < 8)%nat ->
                            candidate w !! i = CreateShortUrl.ALPHABET !! entropy w i).
  { intros w Hb i Hi. rewrite candidate_lookup by done.
    by rewrite Nat.mod_small by by apply Hb. }
  split; [apply generate_short_code_candidate|].
  split; [by apply Hlook|].
  split.
  - intros Heq i Hi.
    pose proof (Hlook w1 Hb1 i Hi) as H1.
    pose proof (Hlook w2 Hb2 i Hi) as H2.
    rewrite Heq, H2 in H1.
    assert (Hlt : (entropy w1 i < length CreateShortUrl.ALPHABET)%nat).
    { rewrite ALPHABET_length. by apply Hb1. }
    destruct (lookup_lt_is_Some_2 _ _ Hlt) as [c Hc].
    symmetry. eapply (NoDup_lookup _ _ _ c ALPHABET_NoDup); [|done].
    unfold str in *. by rewrite H1.
  - intros Hagree. apply list_eq. intros i.
    destruct (decide (i < 8)%nat) as [Hi|Hi].
    + by rewrite !Hlook, Hagree.
    + rewrite !lookup_ge_None_2; [done|..];
        unfold candidate; rewrite length_fmap, length_seq;
        unfold CreateShortUrl.CODE_LENGTH; lia.
Qed.

Lemma generate_short_code_draws_witness :
  (CreateShortUrl.generate_short_code (spelling world0)).1
  = Ok (candidate (spelling world0))
  ∧ (∀ i, (i < 8)%nat ->
          candidate (spelling world0) !! i
          = CreateShortUrl.ALPHABET !! entropy (spelling world0) i)
  ∧ (candidate (spelling world0)
     = candidate (set_entropy (fun _ n => (n / 4)%nat) world0)
     <-> ∀ i, (i < 8)%nat ->
              entropy (spelling world0) i
              = entropy (set_entropy (fun _ n => (n / 4)%nat) world0) i).
Proof.
  apply (generate_short_code_draws (spelling world0)
           (set_entropy (fun _ n => (n / 4)%nat) world0)).
  - intros i Hi. change (entropy (spelling world0) i) with (i / 8)%nat.
    assert (i / 8 <= i)%nat by (apply Nat.Div0.div_le_upper_bound; lia). lia.
  - intros i Hi.
    change (entropy (set_entropy (fun _ n => (n / 4)%nat) world0) i) with (i / 4)%nat.
    assert (i / 4 <= i)%nat by (apply Nat.Div0.div_le_upper_bound; lia). lia.
Defined.

(** The index of a character in the alphabet. *)
Lemma ALPHABET_index (c : N) :
  c ∈ CreateShortUrl.ALPHABET ->
  ∃ j, (j < 62)%nat ∧ CreateShortUrl.ALPHABET !! j = Some c.
Proof.
  intros (j & Hj)%list_elem_of_lookup. exists j. split; [|done].
  rewrite <- ALPHABET_length. by eapply lookup_lt_Some.
Qed.

(** X13.  Every string of 8 characters of [[A-Za-z0-9]] is a code that
    [generate_short_code] returns for some random source: no code is out
    of the generator's reach. *)
Theorem generate_short_code_reaches (code : str) :
  length code = 8%nat ->
  Forall (fun c => alnum c = true) code ->
  ∃ draws : stream nat,
    ∀ w, entropy w = draws ->
         (CreateShortUrl.generate_short_code w).1 = Ok code.
Proof.
  intros Hlen Hal.
  assert (Hidx : ∀ i, ∃ j, (i < 8)%nat -> (j < 62)%nat
                           ∧ CreateShortUrl.ALPHABET !! j = code !! i).
  { intros i. destruct (code !! i) as [c|] eqn:Hc.
    - rewrite Forall_forall in Hal.
      destruct (ALPHABET_index c) as (j & Hj & Hlook).
      { apply alnum_ALPHABET, Hal. by eapply list_elem_of_lookup_2. }
      by exists j.
    - exists 0%nat. intros Hi. apply lookup_ge_None in Hc. lia. }
  destruct code as [|c0 [|c1 [|c2 [|c3 [|c4 [|c5 [|c6 [|c7 [|]]]]]]]]]; try done.
  destruct (Hidx 0%nat) as [j0 H0], (Hidx 1%nat) as [j1 H1], (Hidx 2%nat) as [j2 H2],
    (Hidx 3%nat) as [j3 H3], (Hidx 4%nat) as [j4 H4], (Hidx 5%nat) as [j5 H5],
    (Hidx 6%nat) as [j6 H6], (Hidx 7%nat) as [j7 H7].
  destruct (H0 ltac:(lia)) as [L0 E0], (H1 ltac:(lia)) as [L1 E1],
    (H2 ltac:(lia)) as [L2 E2], (H3 ltac:(lia)) as [L3 E3],
    (H4 ltac:(lia)) as [L4 E4], (H5 ltac:(lia)) as [L5 E5],
    (H6 ltac:(lia)) as [L6 E6], (H7 ltac:(lia)) as [L7 E7].
  exists (stream_of [j0; j1; j2; j3; j4; j5; j6; j7] 0%nat).
  intros w Hw. rewrite generate_short_code_candidate. f_equal.
  unfold candidate, CreateShortUrl.CODE_LENGTH. rewrite Hw. cbn [seq fmap list_fmap stream_of nth].
  rewrite !Nat.mod_small by done.
  unfold str in *. rewrite E0, E1, E2, E3, E4, E5, E6, E7. done.
Qed.

Lemma generate_short_code_reaches_witness :
  ∃ draws : stream nat,
    ∀ w, entropy w = draws ->
         (CreateShortUrl.generate_short_code w).1 = Ok "k9xZ2aB1".
Proof.
  apply (generate_short_code_reaches "k9xZ2aB1").
  - reflexivity.
  - by repeat constructor.
Defined.

(** ** Attempts, in terms of the world they start from *)

Lemma attempt_candidate (u : str) (w : World) :
  ∃ e,
    let it := row (candidate w) u w in
    let w' := sent (PutItem it)
                (set_clock (sdrop 1) (set_clock (sdrop 1) (set_entropy (fun _ => e) w))) in
    attempt u w =
      match outages w 0%nat with
      | Some ce => (Raise (ClientError_ ce), w')
      | None =>
          match table w !! candidate w with
          | Some _ => (Raise (ClientError_ conditional_check_failed), w')
          | None => (Ok it, set_table (insert (candidate w) it) w')
          end
      end.
Proof.
  destruct (generate_short_code_runs w) as (c & e & Hg & _).
  pose proof (generate_short_code_candidate w) as Hc. rewrite Hg in Hc.
  injection Hc as Hc. exists e. rewrite <- Hc.
  unfold attempt. run. rewrite Hg. cbn.
  unfold put_item_if_not_exists. cbn.
  destruct (outages w 0%nat); [done|].
  by destruct (table w !! c).
Qed.

Lemma attempt_clock (u : str) (w : World) (i : nat) :
  clock (attempt u w).2 i = clock w (2 + i)%nat.
Proof.
  destruct (attempt_candidate u w) as (e & ->).
  destruct (outages w 0%nat); [done|].
  by destruct (table w !! candidate w).
Qed.

Lemma retries_clock (k : nat) (u : str) (w w1 : World) (i : nat) :
  retries k u w = Some w1 -> clock w1 i = clock w (2 * k + i)%nat.
Proof.
  revert w. induction k as [|k IH]; intros w.
  - by intros [= <-].
  - intros (ce & w0 & Ha & _ & Hk)%retries_S_inv.
    rewrite (IH _ Hk). pose proof (attempt_clock u w (2 * k + i)) as Hc.
    rewrite Ha in Hc. cbn [snd] in Hc. rewrite Hc. f_equal. lia.
Qed.

(** X14.  A valid create request whose first put the table serves, for a
    first candidate that is not in the table, is answered with 201 after
    that one put: the answer announces the candidate, and the row stored
    under it holds the stripped long URL, the first reading of the clock
    as [created_at] and the second reading plus 7,776,000 as
    [expires_at]. *)
Theorem create_first_try (event : Event.t) (raw : str) (w : World) (base : str) :
  submits event raw -> valid_long_url (Py.strip raw) ->
  outages w 0%nat = None ->
  table w !! candidate w = None ->
  environ w !! "BASE_URL" = Some base ->
  (CreateShortUrl.lambda_handler event w).1
  = Ok (created_response base (candidate w) (Py.strip raw))
  ∧ table (CreateShortUrl.lambda_handler event w).2
    = <[candidate w := {| short_code := candidate w;
                          long_url := Py.strip raw;
                          created_at := clock w 0%nat;
                          expires_at := clock w 1%nat + 7776000 |}]> (table w)
  ∧ requests (CreateShortUrl.lambda_handler event w).2
    = PutItem {| short_code := candidate w;
                 long_url := Py.strip raw;
                 created_at := clock w 0%nat;
                 expires_at := clock w 1%nat + 7776000 |} :: requests w.
Proof.
  intros Hs Hv Ho Ht Hb.
  destruct (attempt_candidate (Py.strip raw) w) as (e & Ha).
  rewrite Ho, Ht in Ha. cbv zeta in Ha.
  rewrite (create_valid _ _ _ Hs Hv).
  rewrite (collision_loop_stored 5 0 _ w w _ _ ltac:(lia) eq_refl Ha), Hb.
  done.
Qed.

Lemma create_first_try_witness :
  (CreateShortUrl.lambda_handler (post "https://example.com/page") world0).1
  = Ok (created_response "https://sho.rt/" (candidate world0)
          (Py.strip "https://example.com/page"))
  ∧ table (CreateShortUrl.lambda_handler (post "https://example.com/page") world0).2
    = <[candidate world0 := {| short_code := candidate world0;
                               long_url := Py.strip "https://example.com/page";
                               created_at := clock world0 0%nat;
                               expires_at := clock world0 1%nat + 7776000 |}]>
        (table world0)
  ∧ requests (CreateShortUrl.lambda_handler (post "https://example.com/page") world0).2
    = PutItem {| short_code := candidate world0;
                 long_url := Py.strip "https://example.com/page";
                 created_at := clock world0 0%nat;
                 expires_at := clock world0 1%nat + 7776000 |} :: requests world0.
Proof.
  apply (create_first_try (post "https://example.com/page")
           "https://example.com/page" world0 "https://sho.rt/").
  - exists [("long_url", Json.JString "https://example.com/page")].
    split; vm_compute; reflexivity.
  - split; [done | vm_compute; reflexivity].
  - reflexivity.
  - vm_compute. reflexivity.
  - vm_compute. reflexivity.
Defined.

(** X15.  The row of a 201 answer carries two successive readings of the
    clock: [created_at] is one reading and [expires_at] the next one plus
    7,776,000 seconds; so with a clock that never goes back the row
    expires no sooner than 90 days after its creation. *)
Theorem create_timestamps (event : Event.t) (w : World) (r : Response) (w' : World) :
  CreateShortUrl.lambda_handler event w = (Ok r, w') ->
  statusCode r = 201%Z ->
  ∃ base it n,
    r = created_response base (short_code it) (long_url it)
    ∧ table w' !! short_code it = Some it
    ∧ created_at it = clock w n
    ∧ expires_at it = (clock w (S n) + 7776000)%Z
    ∧ ((∀ i, (clock w i <= clock w (S i))%Z) ->
       (created_at it + 7776000 <= expires_at it)%Z).
Proof.
  intros Hrun H201.
  destruct (create_201_run _ _ _ _ Hrun H201)
    as (raw & k & w1 & it & base & _ & _ & _ & Hk & Ha & _ & ->).
  destruct (attempt_stored _ _ _ _ Ha) as (c & Hit & _ & _ & _ & _ & Hins & _).
  assert (Hc : short_code it = c) by by rewrite Hit.
  exists base, it, (2 * k)%nat.
  assert (H1 : created_at it = clock w (2 * k)%nat).
  { rewrite Hit. cbn. rewrite (retries_clock _ _ _ _ _ Hk). f_equal. lia. }
  assert (H2 : expires_at it = (clock w (S (2 * k)) + 7776000)%Z).
  { rewrite Hit. cbn [row expires_at]. rewrite (retries_clock _ _ _ _ _ Hk).
    replace (2 * k + 1)%nat with (S (2 * k)) by lia. done. }
  split; [by rewrite Hit|]. split; [by rewrite Hins, Hc, lookup_insert_eq|].
  do 2 (split; [done|]). intros Hmono. rewrite H1, H2. specialize (Hmono (2 * k)%nat). lia.
Qed.

Lemma create_timestamps_witness :
  ∃ base it n,
    created_response "https://sho.rt/" "bbbbbbbb" "https://example.com/second"
    = created_response base (short_code it) (long_url it)
    ∧ table (CreateShortUrl.lambda_handler (post "https://example.com/second") world1).2
        !! short_code it = Some it
    ∧ created_at it = clock world1 n
    ∧ expires_at it = (clock world1 (S n) + 7776000)%Z
    ∧ ((∀ i, (clock world1 i <= clock world1 (S i))%Z) ->
       (created_at it + 7776000 <= expires_at it)%Z).
Proof.
  apply (create_timestamps (post "https://example.com/second") world1).
  - vm_compute. reflexivity.
  - reflexivity.
Defined.

(** ** [json.dumps] and [json.loads] *)

Module JsonRoundTrip.
Import Json.

Lemma hex_value_digit (n : N) : (n < 16)%N -> hex_value (hex_digit n) = Some n.
Proof.
  intros Hn. unfold hex_digit, hex_value, is_digit.
  destruct (N.ltb_spec n 10).
  - replace ((48 <=? 48 + n) && (48 + n <=? 57))%N with true.
    + f_equal. lia.
    + symmetry. apply andb_true_iff. split; apply N.leb_le; lia.
  - replace ((48 <=? 87 + n) && (87 + n <=? 57))%N with false.
    + replace ((97 <=? 87 + n) && (87 + n <=? 102))%N with true.
      * f_equal. lia.
      * symmetry. apply andb_true_iff. split; apply N.leb_le; lia.
    + symmetry. apply andb_false_iff. right. apply N.leb_gt. lia.
Qed.

Lemma hex4_escape (u : N) :
  (u < 65536)%N ->
  hex4 (hex_digit (u / 4096 mod 16)) (hex_digit (u / 256 mod 16))
       (hex_digit (u / 16 mod 16)) (hex_digit (u mod 16)) = Some u.
Proof.
  intros Hu. unfold hex4.
  rewrite !hex_value_digit by (apply N.mod_lt; lia).
  f_equal.
  pose proof (N.div_mod u 16 ltac:(lia)) as H0.
  pose proof (N.div_mod (u / 16) 16 ltac:(lia)) as H1.
  pose proof (N.div_mod (u / 16 / 16) 16 ltac:(lia)) as H2.
  assert (H3 : (u / 16 / 16 / 16 < 16)%N).
  { rewrite !N.Div0.div_div. apply N.Div0.div_lt_upper_bound. lia. }
  rewrite !N.Div0.div_div in *.
  change (16 * 16)%N with 256%N in *. change (256 * 16)%N with 4096%N in *.
  rewrite (N.mod_small (u / 4096) 16) by done. lia.
Qed.

Lemma scanstring_escape_u (u : N) (rest : str) :
  (u < 65536)%N -> is_high_surrogate u = false ->
  scanstring (escape_u u ++ rest) = parse_map (cons u) (scanstring rest).
Proof.
  intros Hu Hhigh. unfold escape_u. cbn [app scanstring].
  change (92 =? 34)%N with false. change (92 =? 92)%N with true.
  change (117 =? 117)%N with true. cbn match.
  rewrite (hex4_escape u Hu), Hhigh.
  by destruct rest as [|? [|? [|? [|? [|? [|? ?]]]]]].
Qed.

Lemma scanstring_escape (c : N) (rest : str) :
  scalar c = true ->
  scanstring (escape_char c ++ rest) = parse_map (cons c) (scanstring rest).
Proof.
  intros Hc. unfold escape_char.
  destruct (N.eqb_spec c 34) as [->|H34]; [done|].
  destruct (N.eqb_spec c 92) as [->|H92]; [done|].
  destruct (N.eqb_spec c 10) as [->|H10]; [done|].
  destruct (N.eqb_spec c 13) as [->|H13]; [done|].
  destruct (N.eqb_spec c 9) as [->|H9]; [done|].
  destruct (N.eqb_spec c 12) as [->|H12]; [done|].
  destruct (N.eqb_spec c 8) as [->|H8]; [done|].
  destruct ((32 <=? c) && (c <=? 126))%N eqn:Hprint.
  { apply andb_true_iff in Hprint as [Hlo%N.leb_le Hhi%N.leb_le].
    cbn [app scanstring].
    rewrite (proj2 (N.eqb_neq c 34)), (proj2 (N.eqb_neq c 92)) by done.
    by rewrite (proj2 (N.ltb_ge c 32)). }
  unfold scalar in Hc.
  destruct (N.ltb_spec c 65536) as [Hbmp|Hastral].
  { apply scanstring_escape_u; [done|].
    unfold is_high_surrogate. apply andb_false_iff.
    apply orb_true_iff in Hc as [Hc%N.ltb_lt | [Hc%N.ltb_lt _]%andb_true_iff].
    - left. apply N.leb_gt. lia.
    - right. apply N.leb_gt. lia. }
  apply orb_true_iff in Hc as [Hc%N.ltb_lt | [_ Hc%N.ltb_lt]%andb_true_iff]; [lia|].
  assert (Hsplit : ∃ q m, (q < 1024 ∧ m < 1024 ∧ c = 65536 + q * 1024 + m
                           ∧ (c - 65536) / 1024 mod 1024 = q
                           ∧ (c - 65536) mod 1024 = m)%N).
  { exists ((c - 65536) / 1024)%N, ((c - 65536) mod 1024)%N.
    assert (Hq : ((c - 65536) / 1024 < 1024)%N)
      by (apply N.Div0.div_lt_upper_bound; lia).
    pose proof (N.div_mod (c - 65536) 1024 ltac:(lia)) as Hdm.
    pose proof (N.mod_lt (c - 65536) 1024 ltac:(lia)) as Hm.
    rewrite (N.mod_small _ 1024 Hq).
    repeat split; try done. lia. }
  destruct Hsplit as (q & m & Hq & Hm & Hcqm & -> & ->).
  rewrite <- app_assoc. unfold escape_u at 1. cbn [app scanstring].
  change (92 =? 34)%N with false. change (92 =? 92)%N with true.
  change (117 =? 117)%N with true. cbn match.
  rewrite (hex4_escape (55296 + q)) by lia.
  unfold escape_u. cbn [app].
  change (92 =? 92)%N with true. change (117 =? 117)%N with true.
  replace (is_high_surrogate (55296 + q)) with true.
  2:{ symmetry. apply andb_true_iff. split; apply N.leb_le; lia. }
  cbn [andb]. rewrite (hex4_escape (56320 + m)) by lia.
  replace (is_low_surrogate (56320 + m)) with true.
  2:{ symmetry. apply andb_true_iff. split; apply N.leb_le; lia. }
  f_equal. f_equal. lia.
Qed.

Lemma scanstring_encoded (s rest : str) :
  Forall (fun c => scalar c = true) s ->
  scanstring (concat (map escape_char s) ++ 34%N :: rest) = Parsed s rest.
Proof.
  induction 1 as [|c s Hc _ IH]; [done|].
  cbn [map concat]. rewrite <- app_assoc, (scanstring_escape _ _ Hc), IH. done.
Qed.

Lemma member_text_app (k v tail : str) :
  member_text (k, v) ++ tail
  = 34%N :: concat (map escape_char k)
      ++ 34%N :: 58%N :: 32%N :: 34%N :: concat (map escape_char v) ++ 34%N :: tail.
Proof.
  unfold member_text, encode_string. cbn [fst snd].
  repeat first [rewrite <- app_assoc | progress cbn [app]]. done.
Qed.

Lemma parse_member (k v tail : str) (fuel : nat) :
  Forall (fun c => scalar c = true) k ->
  Forall (fun c => scalar c = true) v ->
  parse_members (S (S fuel)) (member_text (k, v) ++ tail)
  = match skip_ws tail with
    | d :: r =>
        if (d =? 125)%N then Parsed [(k, JString v)] r
        else if (d =? 44)%N then
          parse_map (cons (k, JString v)) (parse_members (S fuel) (skip_ws r))
        else Invalid
    | [] => Invalid
    end.
Proof.
  intros Hk Hv. rewrite member_text_app. cbn [parse_members].
  change (34 =? 34)%N with true. cbn match.
  rewrite (scanstring_encoded k _ Hk).
  change (skip_ws (58%N :: 32%N :: 34%N :: concat (map escape_char v) ++ 34%N :: tail))
    with (58%N :: 32%N :: 34%N :: concat (map escape_char v) ++ 34%N :: tail).
  change (58 =? 58)%N with true. cbn match.
  change (skip_ws (32%N :: 34%N :: concat (map escape_char v) ++ 34%N :: tail))
    with (34%N :: concat (map escape_char v) ++ 34%N :: tail).
  cbn [parse_value]. change (34 =? 34)%N with true. cbn match.
  rewrite (scanstring_encoded v _ Hv). done.
Qed.

Lemma parse_members_dumped (d : list (str * str)) (kv : str * str) (rest : str) (fuel : nat) :
  scalar_dict (kv :: d) ->
  (length d + 1 < fuel)%nat ->
  parse_members fuel (join ", " (map member_text (kv :: d)) ++ 125%N :: rest)
  = Parsed ((fun kv => (kv.1, JString kv.2)) <$> (kv :: d)) rest.
Proof.
  revert kv fuel. induction d as [|kv' d IH]; intros [k v] fuel Hd Hfuel.
  - apply Forall_cons in Hd as [[Hk Hv] _]. cbn [fst snd] in *.
    destruct fuel as [|[|fuel]]; [cbn in Hfuel; lia..|].
    cbn [map join]. by rewrite (parse_member _ _ _ _ Hk Hv).
  - apply Forall_cons in Hd as [[Hk Hv] Hd]. cbn [fst snd] in *.
    destruct fuel as [|[|fuel]]; [cbn in Hfuel; lia..|].
    specialize (IH kv' (S fuel) Hd ltac:(cbn in Hfuel; lia)).
    change (join ", " (map member_text ((k, v) :: kv' :: d)))
      with (member_text (k, v) ++ ", " ++ join ", " (map member_text (kv' :: d))).
    rewrite <- !app_assoc. rewrite (parse_member _ _ _ _ Hk Hv).
    change (skip_ws (", " ++ join ", " (map member_text (kv' :: d)) ++ 125%N :: rest))
      with (44%N :: 32%N :: (join ", " (map member_text (kv' :: d)) ++ 125%N :: rest)).
    change (44 =? 125)%N with false. change (44 =? 44)%N with true. cbn match.
    change (skip_ws (32%N :: join ", " (map member_text (kv' :: d)) ++ 125%N :: rest))
      with (skip_ws (join ", " (map member_text (kv' :: d)) ++ 125%N :: rest)).
    assert (Hhead : ∃ t, join ", " (map member_text (kv' :: d)) = 34%N :: t).
    { destruct d; cbn; eauto. }
    destruct Hhead as [t Ht]. rewrite Ht in *.
    change (skip_ws ((34%N :: t) ++ 125%N :: rest)) with ((34%N :: t) ++ 125%N :: rest).
    by rewrite IH.
Qed.

Lemma join_length (d : list (str * str)) :
  (length d <= length (join ", " (map member_text d)) + 1)%nat.
Proof.
  induction d as [|kv [|kv' d] IH]; [cbn; lia..|].
  change (join ", " (map member_text (kv :: kv' :: d)))
    with (member_text kv ++ ", " ++ join ", " (map member_text (kv' :: d))).
  rewrite !length_app. cbn [length] in *. lia.
Qed.

Lemma dumps_text (d : list (str * str)) :
  dumps d = 123%N :: join ", " (map member_text d) ++ [125%N].
Proof. done. Qed.

Lemma join_head (kv : str * str) (d : list (str * str)) :
  ∃ t, join ", " (map member_text (kv :: d)) = 34%N :: t.
Proof. destruct d; cbn; eauto. Qed.

Lemma parse_value_dumped (d : list (str * str)) (kv : str * str) (fuel : nat) :
  scalar_dict (kv :: d) ->
  (length d + 1 < fuel)%nat ->
  parse_value (S fuel) (dumps (kv :: d)) = Parsed (as_object (kv :: d)) [].
Proof.
  intros Hd Hfuel. rewrite dumps_text. cbn [parse_value].
  change (123 =? 34)%N with false. change (123 =? 123)%N with true. cbn match.
  pose proof (parse_members_dumped d kv [] fuel Hd Hfuel) as Hparse.
  destruct (join_head kv d) as [t Ht]. rewrite Ht in *.
  change (skip_ws ((34%N :: t) ++ [125%N])) with (34%N :: t ++ [125%N]).
  change (34 =? 125)%N with false. cbn match.
  change (34%N :: t ++ [125%N]) with ((34%N :: t) ++ [125%N]).
  by rewrite Hparse.
Qed.

Lemma loads_dumps (d : list (str * str)) :
  scalar_dict d -> loads (dumps d) = Some (as_object d).
Proof.
  intros Hd. destruct d as [|kv d]; [by vm_compute|].
  unfold loads, decode.
  pose proof (join_length (kv :: d)) as Hlen. cbn [length] in Hlen.
  assert (Hfuel : ∃ fuel, (2 * length (dumps (kv :: d)) + 1 = S fuel
                           ∧ length d + 1 < fuel)%nat).
  { exists (2 * length (dumps (kv :: d)))%nat. split; [lia|].
    rewrite dumps_text. cbn [length]. rewrite length_app. cbn [length]. lia. }
  destruct Hfuel as (fuel & -> & Hfuel).
  replace (skip_ws (dumps (kv :: d))) with (dumps (kv :: d)) by by rewrite dumps_text.
  by rewrite (parse_value_dumped _ _ _ Hd Hfuel).
Qed.

End JsonRoundTrip.

(** ** Answers and requests as JSON text *)

Lemma scalar_alnum (c : N) : alnum c = true -> scalar c = true.
Proof.
  intros Ha. unfold alnum in Ha. bools_to_props.
  unfold scalar. apply orb_true_iff. left. apply N.ltb_lt. lia.
Qed.

Lemma scalar_strip (s : str) :
  Forall (fun c => scalar c = true) s -> Forall (fun c => scalar c = true) (Py.strip s).
Proof.
  intros Hs. destruct (strip_split s) as (l & r & Heq & _).
  rewrite Heq in Hs. by apply Forall_app in Hs as [_ [Hs _]%Forall_app].
Qed.

Lemma scalar_rstrip (chars s : str) :
  Forall (fun c => scalar c = true) s ->
  Forall (fun c => scalar c = true) (Py.rstrip chars s).
Proof.
  intros Hs. unfold Py.rstrip.
  destruct (rstrip_while_split (fun c => bool_decide (c ∈ chars)) s) as (r & Heq & _).
  rewrite Heq in Hs. by apply Forall_app in Hs as [Hs _].
Qed.

(** [POST /shorten] with the body [json.dumps({"long_url": raw})] submits
    [raw]. *)
Lemma submits_post (raw : str) :
  Forall (fun c => scalar c = true) raw -> submits (post raw) raw.
Proof.
  intros Hraw. exists [("long_url", Json.JString raw)]. split; [|done].
  assert (Hd : scalar_dict [("long_url", raw)]).
  { constructor; [|constructor]. split; [by repeat constructor | done]. }
  pose proof (JsonRoundTrip.loads_dumps _ Hd) as Hl.
  cbn [post Event.body str_or].
  destruct (Json.dumps [("long_url", raw)]) as [|c s] eqn:Hdump; [done|].
  by rewrite Hl.
Qed.

(** X16.  The body of every answer built by [_response], in either
    handler, is JSON text that [json.loads] decodes to the dictionary the
    answer was built from, member for member, whenever the strings of the
    dictionary are made of Unicode scalar values. *)
Theorem response_body_decodes (status_code : Z) (d : list (str * str)) :
  scalar_dict d ->
  Json.loads (body (CreateShortUrl._response status_code d)) = Some (as_object d)
  ∧ Json.loads (body (RedirectUrl._response status_code d)) = Some (as_object d)
  ∧ ∀ key value,
      NoDup d.*1 -> (key, value) ∈ d ->
      Json.members_get key ((fun kv => (kv.1, Json.JString kv.2)) <$> d)
      = Some (Json.JString value).
Proof.
  intros Hd. split; [by apply JsonRoundTrip.loads_dumps|].
  split; [by apply JsonRoundTrip.loads_dumps|].
  clear Hd. intros key value. induction d as [|[k v] d IH]; intros Hnd Hin.
  - by apply elem_of_nil in Hin.
  - cbn [fmap list_fmap fst snd Json.members_get] in *.
    apply NoDup_cons in Hnd as [Hk Hnd].
    apply elem_of_cons in Hin as [[= -> ->] | Hin].
    + destruct (Json.members_get k _) as [v'|] eqn:Hget.
      * exfalso. apply Hk. clear -Hget.
        induction d as [|[k' v''] d IH]; [done|].
        cbn [fmap list_fmap fst snd Json.members_get] in *.
        destruct (Json.members_get k _) as [?|] eqn:Hget'.
        -- right. by apply IH.
        -- case_decide; [|done]. subst. by left.
      * by rewrite decide_True.
    + by rewrite (IH Hnd Hin).
Qed.

Lemma response_body_decodes_witness :
  Json.loads (body (CreateShortUrl._response 400 [("error", "long_url is required")]))
  = Some (as_object [("error", "long_url is required")])
  ∧ Json.loads (body (RedirectUrl._response 400 [("error", "long_url is required")]))
    = Some (as_object [("error", "long_url is required")])
  ∧ ∀ key value,
      NoDup [("error", "long_url is required")].*1 ->
      (key, value) ∈ [("error", "long_url is required")] ->
      Json.members_get key
        ((fun kv => (kv.1, Json.JString kv.2)) <$> [("error", "long_url is required")])
      = Some (Json.JString value).
Proof.
  apply (response_body_decodes 400 [("error", "long_url is required")]).
  constructor; [|constructor]. split; by repeat constructor.
Defined.

(** A string with a surrogate pair written as two code points does not
    survive: it is encoded as two escapes, which decode to one code
    point. *)
Example surrogates_do_not_round_trip :
  Json.loads (Json.dumps [("long_url", [55357; 56832]%N)])
  = Some (as_object [("long_url", [128512%N])]).
Proof. vm_compute. reflexivity. Qed.

(** ** From a request to the redirect, through the JSON text *)

Lemma candidate_shape (w : World) :
  length (candidate w) = 8%nat
  ∧ Forall (fun c => c ∈ CreateShortUrl.ALPHABET) (candidate w).
Proof.
  destruct (generate_short_code_runs w) as (c & e & Hg & Hlen & Hall).
  pose proof (generate_short_code_candidate w) as Hc. rewrite Hg in Hc.
  by injection Hc as <-.
Qed.

(** X17.  Shorten, read the answer, follow.  For a long URL made of Unicode
    scalar values that is valid once stripped, in a world where [BASE_URL]
    is set (to scalar values), the table serves the next two requests and
    the first candidate is free: the create handler answers 201; its body
    decodes to an object whose [short_code] is the candidate and whose
    [long_url] is the stripped URL; and the redirect handler, asked for
    that code, answers 301 to the stripped URL. *)
Theorem shorten_then_follow (raw base : str) (w : World) :
  Forall (fun c => scalar c = true) raw ->
  Forall (fun c => scalar c = true) base ->
  valid_long_url (Py.strip raw) ->
  environ w !! "BASE_URL" = Some base ->
  outages w 0%nat = None -> outages w 1%nat = None ->
  table w !! candidate w = None ->
  ∃ r w1 members,
    CreateShortUrl.lambda_handler (post raw) w = (Ok r, w1)
    ∧ statusCode r = 201%Z
    ∧ Json.loads (body r) = Some (Json.JObject members)
    ∧ Json.members_get "short_code" members = Some (Json.JString (candidate w))
    ∧ Json.members_get "long_url" members = Some (Json.JString (Py.strip raw))
    ∧ Json.members_get "short_url" members
      = Some (Json.JString (Py.rstrip "/" base ++ "/" ++ candidate w))
    ∧ (RedirectUrl.lambda_handler (fetch (candidate w)) w1).1
      = Ok (moved_permanently (Py.strip raw)).
Proof.
  intros Hraw Hbase Hv Hb Ho0 Ho1 Ht.
  pose proof (submits_post raw Hraw) as Hs.
  destruct (candidate_shape w) as [Hlen Hall].
  destruct (attempt_candidate (Py.strip raw) w) as (e & Ha).
  rewrite Ho0, Ht in Ha. cbv zeta in Ha.
  pose proof (create_valid _ _ w Hs Hv) as Hrun.
  rewrite (collision_loop_stored 5 0 _ w w _ _ ltac:(lia) eq_refl Ha), Hb in Hrun.
  cbn [row short_code] in Hrun.
  eexists _, _, _. split; [exact Hrun|]. split; [done|].
  split.
  { apply JsonRoundTrip.loads_dumps.
    assert (Hcode : Forall (fun c => scalar c = true) (candidate w)).
    { eapply Forall_impl; [exact Hall|]. intros c Hc. apply scalar_alnum.
      pose proof ALPHABET_alnum as Hal. rewrite Forall_forall in Hal. by apply Hal. }
    assert (Hcons : ∀ k v d, Forall (fun c => scalar c = true) k ->
                             Forall (fun c => scalar c = true) v ->
                             scalar_dict d -> scalar_dict ((k, v) :: d))
      by (intros; by constructor).
    apply Hcons; [by repeat constructor | | ].
    { apply Forall_app. split; [by apply scalar_rstrip|].
      apply Forall_app. split; [by repeat constructor | done]. }
    apply Hcons; [by repeat constructor | done | ].
    apply Hcons; [by repeat constructor | by apply scalar_strip | ].
    apply Hcons; [by repeat constructor | by repeat constructor | constructor]. }
  do 3 (split; [reflexivity|]).
  pose proof (redirect_found (fetch (candidate w))) as Hfound.
  rewrite path_short_code_fetch, (code_strip _ Hall) in Hfound.
  rewrite (Hfound _ (row (candidate w) (Py.strip raw) w)); [reflexivity| | |].
  - intros Hnil. by rewrite Hnil in Hlen.
  - exact Ho1.
  - cbn. by rewrite lookup_insert_eq.
Qed.

Lemma shorten_then_follow_witness :
  ∃ r w1 members,
    CreateShortUrl.lambda_handler (post " https://example.com/page ") world0 = (Ok r, w1)
    ∧ statusCode r = 201%Z
    ∧ Json.loads (body r) = Some (Json.JObject members)
    ∧ Json.members_get "short_code" members = Some (Json.JString (candidate world0))
    ∧ Json.members_get "long_url" members
      = Some (Json.JString (Py.strip " https://example.com/page "))
    ∧ Json.members_get "short_url" members
      = Some (Json.JString (Py.rstrip "/" "https://sho.rt/" ++ "/" ++ candidate world0))
    ∧ (RedirectUrl.lambda_handler (fetch (candidate world0)) w1).1
      = Ok (moved_permanently (Py.strip " https://example.com/page ")).
Proof.
  apply (shorten_then_follow " https://example.com/page " "https://sho.rt/" world0).
  - by repeat constructor.
  - by repeat constructor.
  - split; [done | vm_compute; reflexivity].
  - vm_compute. reflexivity.
  - reflexivity.
  - reflexivity.
  - vm_compute. reflexivity.
Defined.

(** ** Bodies that are not an object with a string *)

Lemma loads_whitespace (s : str) :
  Forall (fun c => Json.is_ws c = true) s -> Json.loads s = None.
Proof.
  intros Hs. unfold Json.loads, Json.decode, Json.skip_ws.
  rewrite lstrip_while_all by done. by rewrite Nat.add_1_r.
Qed.

(** X18.  A create request with no body, or with an empty one, is read as
    the body [{}] and answered 400 "long_url is required"; a body of
    JSON whitespace alone is not: it is answered 400 "Request body must
    be valid JSON".  Either way nothing is sent to the table. *)
Theorem create_blank_body (event : Event.t) (w : World) :
  (Event.body event = None ∨ Event.body event = Some "" ->
   CreateShortUrl.lambda_handler event w
   = (Ok (bad_request "long_url is required"), w))
  ∧ (∀ s, Event.body event = Some s -> s ≠ "" ->
          Forall (fun c => Json.is_ws c = true) s ->
          CreateShortUrl.lambda_handler event w
          = (Ok (bad_request "Request body must be valid JSON"), w)).
Proof.
  split.
  - intros Hb. apply (create_missing _ []); [|done].
    by destruct Hb as [-> | ->].
  - intros s Hb Hne Hs. apply create_malformed. rewrite Hb.
    destruct s as [|c s]; [done|]. by apply loads_whitespace.
Qed.

(** X19.  A create request whose body decodes to anything but an object,
    or to an object whose [long_url] is not a string, is not answered: the
    handler raises [AttributeError], and nothing is sent to the table. *)
Theorem create_attribute_error (event : Event.t) (v : Json.value) (w : World) :
  Json.loads (str_or (Event.body event) "{}") = Some v ->
  match v with
  | Json.JObject members =>
      match Json.members_get "long_url" members with
      | None | Some (Json.JString _) => False
      | Some _ => True
      end
  | _ => True
  end ->
  CreateShortUrl.lambda_handler event w = (Raise AttributeError, w).
Proof.
  intros Hl Hv.
  unfold CreateShortUrl.lambda_handler, CreateShortUrl.json_loads. run. rewrite Hl.
  destruct v as [| | | | |members]; try done.
  cbn [CreateShortUrl.get]. run.
  by destruct (Json.members_get "long_url" members) as [[| | | | |]|].
Qed.

Lemma create_attribute_error_witness :
  CreateShortUrl.lambda_handler
    (post_body ("{" ++ Json.encode_string "long_url" ++ ": null}")) world1
  = (Raise AttributeError, world1).
Proof.
  apply (create_attribute_error
           (post_body ("{" ++ Json.encode_string "long_url" ++ ": null}"))
           (Json.JObject [("long_url", Json.JNull)]) world1).
  - vm_compute. reflexivity.
  - exact I.
Defined.

(** ** What is stored and announced, against what was submitted *)

(** X20.  The long URL a 201 answer has stored is the submitted one with
    nothing but whitespace taken off its two ends: the submitted string
    is whitespace, then the stored string, then whitespace, and the
    stored string neither starts nor ends with a whitespace character. *)
Theorem create_stores_trimmed
    (event : Event.t) (raw : str) (w : World) (r : Response) (w' : World) :
  submits event raw ->
  CreateShortUrl.lambda_handler event w = (Ok r, w') ->
  statusCode r = 201%Z ->
  ∃ it before after,
    table w' !! short_code it = Some it
    ∧ raw = before ++ long_url it ++ after
    ∧ Forall (fun c => Py.isspace c = true) before
    ∧ Forall (fun c => Py.isspace c = true) after
    ∧ (∀ c, head (long_url it) = Some c -> Py.isspace c = false)
    ∧ (∀ c, last (long_url it) = Some c -> Py.isspace c = false).
Proof.
  intros Hs Hrun H201.
  destruct (create_201_row _ _ _ _ _ Hs Hrun H201)
    as (base & it & _ & _ & _ & Ht & Hu & _).
  destruct (strip_split raw) as (before & after & Heq & Hb & Ha).
  destruct (strip_ends raw) as [Hhead Hlast].
  exists it, before, after. rewrite Hu. done.
Qed.

Lemma create_stores_trimmed_witness :
  ∃ it before after,
    table (CreateShortUrl.lambda_handler
             (post "  https://example.com/a b ") world0).2 !! short_code it = Some it
    ∧ ("  https://example.com/a b " : str) = before ++ long_url it ++ after
    ∧ Forall (fun c => Py.isspace c = true) before
    ∧ Forall (fun c => Py.isspace c = true) after
    ∧ (∀ c, head (long_url it) = Some c -> Py.isspace c = false)
    ∧ (∀ c, last (long_url it) = Some c -> Py.isspace c = false).
Proof.
  apply (create_stores_trimmed (post "  https://example.com/a b ")
           "  https://example.com/a b " world0
           (created_response "https://sho.rt/" "dkryFMT0" "https://example.com/a b")).
  - exists [("long_url", Json.JString "  https://example.com/a b ")].
    split; vm_compute; reflexivity.
  - vm_compute. reflexivity.
  - reflexivity.
Defined.

(** X21.  The short URL of a 201 answer is [BASE_URL] without its
    trailing slashes, one slash, and the code: however many slashes
    [BASE_URL] ends with, none or several, there is exactly one between
    it and the code. *)
Theorem create_short_url_joint (event : Event.t) (w : World) (r : Response) (w' : World) :
  CreateShortUrl.lambda_handler event w = (Ok r, w') ->
  statusCode r = 201%Z ->
  ∃ base stem slashes code long,
    environ w !! "BASE_URL" = Some base
    ∧ base = stem ++ slashes
    ∧ Forall (fun c => c = 47%N) slashes
    ∧ last stem ≠ Some 47%N
    ∧ r = CreateShortUrl._response 201
            [("short_url", stem ++ "/" ++ code);
             ("short_code", code);
             ("long_url", long);
             ("expires_in", "90 days")].
Proof.
  intros Hrun H201.
  destruct (create_201_run _ _ _ _ Hrun H201)
    as (raw & k & w1 & it & base & _ & _ & _ & Hk & Ha & Hb & ->).
  destruct (attempt_stored _ _ _ _ Ha) as (c & _ & _ & _ & _ & _ & _ & He & _).
  rewrite He, (retries_environ _ _ _ _ Hk) in Hb.
  destruct (rstrip_while_split (fun c => bool_decide (c ∈ ("/" : str))) base)
    as (slashes & Heq & Hsl).
  exists base, (Py.rstrip "/" base), slashes, (short_code it), (Py.strip raw).
  split; [done|]. split; [done|]. split.
  - eapply Forall_impl; [exact Hsl|]. intros ch Hch.
    apply bool_decide_eq_true in Hch. by apply list_elem_of_singleton in Hch.
  - split; [|done]. intros Hlast.
    apply (rstrip_while_last (fun c => bool_decide (c ∈ ("/" : str)))) in Hlast.
    apply bool_decide_eq_false in Hlast. apply Hlast. by apply list_elem_of_singleton.
Qed.

Lemma create_short_url_joint_witness :
  ∃ base stem slashes code long,
    environ world0 !! "BASE_URL" = Some base
    ∧ base = stem ++ slashes
    ∧ Forall (fun c => c = 47%N) slashes
    ∧ last stem ≠ Some 47%N
    ∧ created_response "https://sho.rt/" "dkryFMT0" "https://example.com/page"
      = CreateShortUrl._response 201
          [("short_url", stem ++ "/" ++ code);
           ("short_code", code);
           ("long_url", long);
           ("expires_in", "90 days")].
Proof.
  apply (create_short_url_joint (post "https://example.com/page") world0 _
           (CreateShortUrl.lambda_handler (post "https://example.com/page") world0).2).
  - vm_compute. reflexivity.
  - reflexivity.
Defined.
